(** * DocuMind: PDF text extraction, study-material generation and the
      dashboard request handler

    A shallow embedding of [core/utils.py] and [core/views.py].

    - Python [str] is modelled by [string]; a character stands for the code
      point of the same number (code points below 256).
    - The value a JSON document decodes to is [pyval]; a [dict] is a finite
      map with string keys.
    - Exceptions are values of type [exn]; a computation runs over a [store]
      holding the handler's [context] dictionary and the list of calls made
      so far, and ends in [Ok] or [Raise].
    - The libraries the code calls ([os.getenv], [pdfplumber],
      [google.generativeai], [json.loads]) are fields of a [World].
    - Left out: what [print] and [logger.error] write, [genai.configure], and
      the wording of the prompt, which is a fixed text followed by the source
      text.
    - The view is modelled up to the call of [render]: what it returns is
      the context handed to [render], and [request.FILES] is taken as already
      read.  Exceptions outside [Exception] ([KeyboardInterrupt],
      [SystemExit]), which no [except Exception] catches, are not
      modelled. *)

From Stdlib Require Import String Ascii List ZArith Bool Lia.
From Stdlib Require Import Floats.SpecFloat.
From stdpp Require Import base option gmap strings.

Import ListNotations.
Local Open Scope string_scope.

(** ** Python values *)

#[local] Set Warnings "-register-all".

Inductive pyval : Type :=
| PyNone
| PyBool (b : bool)
| PyInt (n : Z)
| PyFloat (f : spec_float)
| PyStr (s : string)
| PyList (l : list pyval)
| PyDict (d : gmap string pyval).

Inductive pytype := TNoneType | TBool | TInt | TFloat | TStr | TList | TDict.

Definition type_of (v : pyval) : pytype :=
  match v with
  | PyNone => TNoneType
  | PyBool _ => TBool
  | PyInt _ => TInt
  | PyFloat _ => TFloat
  | PyStr _ => TStr
  | PyList _ => TList
  | PyDict _ => TDict
  end.

Definition type_name (t : pytype) : string :=
  match t with
  | TNoneType => "NoneType"
  | TBool => "bool"
  | TInt => "int"
  | TFloat => "float"
  | TStr => "str"
  | TList => "list"
  | TDict => "dict"
  end.

(** ** Exceptions

    Only subclasses of [Exception] are modelled.  [ValueError] and
    [RuntimeError] are what the two modules raise themselves, with the cause
    given by [raise ... from ...].  [TypeError], [KeyError] and
    [AttributeError] are raised by the interpreter; a [TypeError] records the
    operation that raised it and the type of the operand.  [JSONDecodeError]
    is [json.loads]'s, [LibraryError] any other exception that comes out of
    a library call. *)

Inductive pyop := OpContains | OpGetItem | OpSetItem.

Inductive exn : Type :=
| ValueError (msg : string) (cause : option exn)
| RuntimeError (msg : string) (cause : option exn)
| TypeError (op : pyop) (operand : pytype)
| KeyError (key : string)
| AttributeError (operand : pytype) (attr : string)
| JSONDecodeError (msg : string)
| LibraryError (cls : string) (msg : string).

(** [repr(s)] for a string: between apostrophes, or between double quotes
    when the string holds an apostrophe and no double quote; the quote in
    use and the backslash are escaped, TAB, LF and CR are written with their
    letter, and the other characters that are not printable in hexadecimal
    (below 32, 127 to 160, and the soft hyphen). *)
Definition quotation_mark : ascii := "034"%char.
Definition apostrophe : ascii := "039"%char.
Definition backslash : ascii := "092"%char.

Definition hex_digit (n : nat) : ascii :=
  match n with
  | 0 => "0" | 1 => "1" | 2 => "2" | 3 => "3" | 4 => "4" | 5 => "5" | 6 => "6"
  | 7 => "7" | 8 => "8" | 9 => "9" | 10 => "a" | 11 => "b" | 12 => "c"
  | 13 => "d" | 14 => "e" | _ => "f"
  end%char.

Definition isprintable (c : ascii) : bool :=
  let n := nat_of_ascii c in
  (Nat.leb 32 n && Nat.leb n 126)
  || (Nat.leb 161 n && negb (Nat.eqb n 173)).

Fixpoint has_char (q : ascii) (s : string) : bool :=
  match s with
  | EmptyString => false
  | String c s' => Ascii.eqb c q || has_char q s'
  end.

Definition repr_char (quote c : ascii) : string :=
  let n := nat_of_ascii c in
  if Ascii.eqb c quote || Ascii.eqb c backslash then String backslash (String c "")
  else if Nat.eqb n 9 then String backslash "t"
  else if Nat.eqb n 10 then String backslash "n"
  else if Nat.eqb n 13 then String backslash "r"
  else if isprintable c then String c ""
  else String backslash
         (String "x" (String (hex_digit (n / 16)) (String (hex_digit (n mod 16)) ""))).

Fixpoint repr_chars (quote : ascii) (s : string) : string :=
  match s with
  | EmptyString => String quote ""
  | String c s' => repr_char quote c ++ repr_chars quote s'
  end.

Definition py_repr (s : string) : string :=
  let quote :=
    if has_char apostrophe s && negb (has_char quotation_mark s)
    then quotation_mark else apostrophe in
  String quote (repr_chars quote s).

(** [str(exc)], with the wording of CPython 3.12 for the interpreter's own
    messages.  [KeyError key] is the error of a dictionary lookup,
    [KeyError(key)] for a string key, whose text is [repr(key)]. *)
Definition str_exc (e : exn) : string :=
  match e with
  | ValueError msg _ => msg
  | RuntimeError msg _ => msg
  | TypeError OpContains t =>
      "argument of type '" ++ type_name t ++ "' is not iterable"
  | TypeError OpGetItem TList => "list indices must be integers or slices, not str"
  | TypeError OpGetItem TStr => "string indices must be integers, not 'str'"
  | TypeError OpGetItem t => "'" ++ type_name t ++ "' object is not subscriptable"
  | TypeError OpSetItem TList => "list indices must be integers or slices, not str"
  | TypeError OpSetItem t =>
      "'" ++ type_name t ++ "' object does not support item assignment"
  | KeyError key => py_repr key
  | AttributeError t attr =>
      "'" ++ type_name t ++ "' object has no attribute '" ++ attr ++ "'"
  | JSONDecodeError msg => msg
  | LibraryError _ msg => msg
  end.

Definition is_JSONDecodeError (e : exn) : bool :=
  match e with JSONDecodeError _ => true | _ => false end.

Definition is_AttributeError (e : exn) : bool :=
  match e with AttributeError _ _ => true | _ => false end.

(** ** Computations *)

Inductive result (A : Type) : Type :=
| Ok (a : A)
| Raise (e : exn).
Arguments Ok {A} a.
Arguments Raise {A} e.

(** The template context of [dashboard]: a dictionary with four fixed keys. *)
Record context := mkContext {
  summary : pyval;
  flashcards : pyval;
  quiz : pyval;
  error : option string
}.

Inductive event :=
| CallExtract               (* extract_text_from_pdf entered *)
| CallGenerate              (* generate_study_material entered *)
| CallModel (name : string) (* GenerativeModel(name, ...).generate_content(prompt) *).

Record store := mkStore {
  ctx : context;
  calls : list event
}.

Definition M (A : Type) : Type := store -> result A * store.

Definition ret {A} (a : A) : M A := fun s => (Ok a, s).

Definition raise {A} (e : exn) : M A := fun s => (Raise e, s).

Definition bind {A B} (m : M A) (k : A -> M B) : M B :=
  fun s => match m s with
           | (Ok a, s') => k a s'
           | (Raise e, s') => (Raise e, s')
           end.

(** [try: m  except Exception as exc: h exc]; what [m] did to the store
    before it raised stays done. *)
Definition try_except {A} (m : M A) (h : exn -> M A) : M A :=
  fun s => match m s with
           | (Ok a, s') => (Ok a, s')
           | (Raise e, s') => h e s'
           end.

(** [except C as exc] for a class test [is_C]. *)
Definition try_except_class {A} (is_C : exn -> bool) (m : M A) (h : exn -> M A) : M A :=
  try_except m (fun e => if is_C e then h e else raise e).

Definition lift {A} (r : result A) : M A := fun s => (r, s).

Definition log (ev : event) : M unit :=
  fun s => (Ok tt, mkStore (ctx s) (calls s ++ [ev])).

Definition update_context (f : context -> context) : M unit :=
  fun s => (Ok tt, mkStore (f (ctx s)) (calls s)).

Declare Scope py_scope.
Delimit Scope py_scope with py.
Notation "x <- m ;; k" := (bind m (fun x => k))
  (at level 100, m at next level, right associativity) : py_scope.
Notation "m ;; k" := (bind m (fun _ => k))
  (at level 100, right associativity) : py_scope.

Local Open Scope py_scope.

(** ** The [str] methods the code uses *)

(** [c.isspace()] for the code points below 256: TAB to CR, FS to US and the
    space, NEL and the no-break space. *)
Definition isspace (c : ascii) : bool :=
  let n := nat_of_ascii c in
  (Nat.leb 9 n && Nat.leb n 13) || (Nat.leb 28 n && Nat.leb n 32)
  || Nat.eqb n 133 || Nat.eqb n 160.

Fixpoint lstrip (s : string) : string :=
  match s with
  | EmptyString => EmptyString
  | String c s' => if isspace c then lstrip s' else s
  end.

Fixpoint rstrip (s : string) : string :=
  match s with
  | EmptyString => EmptyString
  | String c s' =>
      match rstrip s' with
      | EmptyString => if isspace c then EmptyString else String c EmptyString
      | r => String c r
      end
  end.

(** [s.strip()] *)
Definition strip (s : string) : string := rstrip (lstrip s).

(** [c.lower()] for the code points below 256: A to Z and the accented
    capitals (all of 192 to 222 but the multiplication sign). *)
Definition lower_char (c : ascii) : ascii :=
  let n := nat_of_ascii c in
  if (Nat.leb 65 n && Nat.leb n 90)
     || (Nat.leb 192 n && Nat.leb n 222 && negb (Nat.eqb n 215))
  then ascii_of_nat (n + 32) else c.

(** [s.lower()] *)
Fixpoint lower (s : string) : string :=
  match s with
  | EmptyString => EmptyString
  | String c s' => String (lower_char c) (lower s')
  end.

(** [s.endswith(suffix)] *)
Definition endswith (s suffix : string) : bool :=
  Nat.leb (String.length suffix) (String.length s)
  && String.eqb
       (String.substring (String.length s - String.length suffix) (String.length suffix) s)
       suffix.

(** [sub in s] for two strings *)
Fixpoint str_contains (sub s : string) : bool :=
  String.prefix sub s
  || match s with
     | EmptyString => false
     | String _ s' => str_contains sub s'
     end.

(** Truth value of a string: [bool(s)] *)
Definition str_truthy (s : string) : bool :=
  match s with EmptyString => false | _ => true end.

(** [v or ""] for [v] a string or [None] *)
Definition or_empty (v : option string) : string :=
  match v with
  | Some s => if str_truthy s then s else ""
  | None => ""
  end.

Definition newline : ascii := "010"%char.

(** The separator of [extract_text_from_pdf]: two line feeds. *)
Definition blank_line : string := String newline (String newline EmptyString).

(** [sep.join(chunks)] *)
Definition join (sep : string) (chunks : list string) : string :=
  String.concat sep chunks.

(** ** The outside world *)

(** An uploaded file: Django's [UploadedFile]. *)
Record UploadedFile := mkUploadedFile {
  name : string;
  content : list Byte.byte
}.

(** A page of an opened PDF, given by what [page.extract_text()] does: it
    raises, or returns a string or [None]. *)
Record page := mkPage {
  extract_text : result (option string)
}.

(** A response of the generation service, given by what evaluating
    [response.text] does. *)
Record response := mkResponse {
  text : result (option string)
}.

Record World := mkWorld {
  (** [os.getenv(name)] *)
  getenv : string -> option string;
  (** [pdfplumber.open(pdf_file)] followed by [pdf.pages] *)
  pdfplumber_open : UploadedFile -> result (list page);
  (** [genai.GenerativeModel(name, generation_config=...).generate_content(prompt)];
      the prompt and the configuration are fixed but for the source text, so
      the outcome is given for a model name and that text. *)
  generate_content : string -> string -> result response;
  (** [json.loads(raw_text)] *)
  json_loads : string -> result pyval
}.

(** ** core/utils.py: extract_text_from_pdf *)

(** The loop over [pdf.pages], with [text_chunks] as the accumulator. *)
Fixpoint collect_chunks (pages : list page) (text_chunks : list string) : list string :=
  match pages with
  | [] => text_chunks
  | p :: rest =>
      match extract_text p with
      | Raise _ => collect_chunks rest text_chunks    (* except Exception: continue *)
      | Ok t =>
          let page_text := or_empty t in
          let cleaned := strip page_text in
          if str_truthy cleaned
          then collect_chunks rest (text_chunks ++ [cleaned])%list
          else collect_chunks rest text_chunks
      end
  end.

Definition read_error_message : string :=
  "Could not read PDF file. It may be corrupt or not a valid PDF.".

Definition empty_content_message : string :=
  "No extractable text was found in the PDF.".

Definition extract_text_from_pdf (w : World) (pdf_file : UploadedFile) : M string :=
  log CallExtract ;;
  text_chunks <-
    try_except
      (pages <- lift (pdfplumber_open w pdf_file) ;;
       ret (collect_chunks pages []))
      (fun exc => raise (ValueError read_error_message (Some exc))) ;;
  match text_chunks with
  | [] => raise (ValueError empty_content_message None)
  | _ => ret (join blank_line text_chunks)
  end.

(** ** The operations on the decoded payload *)

Definition is_str (v : pyval) : bool :=
  match v with PyStr _ => true | _ => false end.

Definition is_list (v : pyval) : bool :=
  match v with PyList _ => true | _ => false end.

(** [key == v] for a string [key] *)
Definition equals_str (key : string) (v : pyval) : bool :=
  match v with PyStr s => String.eqb key s | _ => false end.

(** [key in data] *)
Definition py_contains (key : string) (data : pyval) : result bool :=
  match data with
  | PyDict d => Ok (match d !! key with Some _ => true | None => false end)
  | PyList l => Ok (existsb (equals_str key) l)
  | PyStr s => Ok (str_contains key s)
  | _ => Raise (TypeError OpContains (type_of data))
  end.

(** [data[key]] *)
Definition py_getitem (key : string) (data : pyval) : result pyval :=
  match data with
  | PyDict d => match d !! key with Some v => Ok v | None => Raise (KeyError key) end
  | _ => Raise (TypeError OpGetItem (type_of data))
  end.

(** [data[key] = v] *)
Definition py_setitem (key : string) (v : pyval) (data : pyval) : result pyval :=
  match data with
  | PyDict d => Ok (PyDict (<[key := v]> d))
  | _ => Raise (TypeError OpSetItem (type_of data))
  end.

(** [data.get(key, default)] *)
Definition py_get (key : string) (default : pyval) (data : pyval) : result pyval :=
  match data with
  | PyDict d => Ok (match d !! key with Some v => v | None => default end)
  | _ => Raise (AttributeError (type_of data) "get")
  end.

(** ** core/utils.py: generate_study_material *)

Definition primary_model : string := "gemini-flash-latest".
Definition fallback_model : string := "gemini-pro-latest".
Definition latest_model : string := "gemini-2.0-flash-lite-preview-02-05".

Definition missing_key_message : string :=
  "GEMINI_API_KEY is not set in the environment.".

Definition all_failed_message : string :=
  "All Gemini model attempts failed. Please check your quota, region, or model access.".

Definition empty_response_message : string := "Gemini returned an empty response.".

Definition invalid_json_message : string := "Gemini did not return valid JSON.".

(** One model attempt: the body of each [try]. *)
Definition call_model (w : World) (model_name source : string) : M response :=
  log (CallModel model_name) ;;
  lift (generate_content w model_name source).

(** The three nested [try] statements; the result is the pair of the locals
    [response] and [last_error] after them. *)
Definition attempt_models (w : World) (source : string)
  : M (option response * option exn) :=
  try_except
    (r <- call_model w primary_model source ;; ret (Some r, None))
    (fun e_primary =>
       try_except
         (r <- call_model w fallback_model source ;; ret (Some r, Some e_primary))
         (fun e_fallback =>
            try_except
              (r <- call_model w latest_model source ;; ret (Some r, Some e_fallback))
              (fun e_latest => ret (None, Some e_latest)))).

(** [getattr(response, "text", "")] *)
Definition getattr_text (r : response) : M (option string) :=
  try_except_class is_AttributeError (lift (text r)) (fun _ => ret (Some "")).

(** [if key not in data or not isinstance(data[key], T): data[key] = default] *)
Definition normalize_field (key : string) (isinstance_T : pyval -> bool)
    (default : pyval) (data : pyval) : M pyval :=
  absent <- (present <- lift (py_contains key data) ;; ret (negb present)) ;;
  reset <- (if absent : bool then ret true
            else v <- lift (py_getitem key data) ;; ret (negb (isinstance_T v))) ;;
  if reset : bool then lift (py_setitem key default data) else ret data.

(** Lines 147 to 157: the schema normalization. *)
Definition normalize (data : pyval) : M pyval :=
  data <- normalize_field "summary" is_str (PyStr "") data ;;
  data <- normalize_field "flashcards" is_list (PyList []) data ;;
  data <- normalize_field "quiz" is_list (PyList []) data ;;
  ret data.

(** Lines 138 to 157: from the response to the returned dictionary. *)
Definition read_response (w : World) (r : response) : M pyval :=
  v <- getattr_text r ;;
  let raw_text := or_empty v in
  if negb (str_truthy raw_text)
  then raise (ValueError empty_response_message None)
  else
    data <- try_except_class is_JSONDecodeError
              (lift (json_loads w raw_text))
              (fun exc => raise (ValueError invalid_json_message (Some exc))) ;;
    normalize data.

Definition generate_study_material (w : World) (source : string) : M pyval :=
  log CallGenerate ;;
  let api_key := getenv w "GEMINI_API_KEY" in
  if negb (str_truthy (or_empty api_key))
  then raise (RuntimeError missing_key_message None)
  else
    locals <- attempt_models w source ;;
    let '(response, last_error) := locals in
    match response with
    | None => raise (RuntimeError all_failed_message last_error)
    | Some r => read_response w r
    end.

(** ** core/views.py: dashboard *)

Inductive http_method := GET | POST.

(** The decorator admits GET and POST only.  [FILES] is the dictionary of
    the uploaded files by form field. *)
Record request := mkRequest {
  method : http_method;
  FILES : gmap string UploadedFile
}.

Definition initial_context : context :=
  mkContext PyNone (PyList []) (PyList []) None.

Definition set_summary (v : pyval) (c : context) : context :=
  mkContext v (flashcards c) (quiz c) (error c).
Definition set_flashcards (v : pyval) (c : context) : context :=
  mkContext (summary c) v (quiz c) (error c).
Definition set_quiz (v : pyval) (c : context) : context :=
  mkContext (summary c) (flashcards c) v (error c).
Definition set_error (msg : string) (c : context) : context :=
  mkContext (summary c) (flashcards c) (quiz c) (Some msg).

(** Truth value of what [request.FILES.get("pdf_file")] returns: [None] is
    false, and Django's [File.__bool__] is [bool(self.name)]. *)
Definition file_truthy (f : option UploadedFile) : bool :=
  match f with
  | None => false
  | Some f => str_truthy (name f)
  end.

Definition no_file_message : string := "Please upload a PDF file.".
Definition not_pdf_message : string := "Only PDF files are supported.".
Definition fallback_message : string :=
  "Something went wrong while processing the PDF.".

(** [str(exc) or "Something went wrong ..."] *)
Definition error_text (exc : exn) : string :=
  if str_truthy (str_exc exc) then str_exc exc else fallback_message.

(** The view; what it hands to [render] is the context. *)
Definition dashboard (w : World) (req : request) : M context :=
  update_context (fun _ => initial_context) ;;
  match method req with
  | GET => ret tt
  | POST =>
      let uploaded_file := FILES req !! "pdf_file" in
      if negb (file_truthy uploaded_file)
      then update_context (set_error no_file_message)
      else
        match uploaded_file with
        | None => ret tt   (* not reached: [None] is not truthy *)
        | Some f =>
            if negb (endswith (lower (name f)) ".pdf")
            then update_context (set_error not_pdf_message)
            else
              try_except
                (source <- extract_text_from_pdf w f ;;
                 study_material <- generate_study_material w source ;;
                 v <- lift (py_get "summary" PyNone study_material) ;;
                 update_context (set_summary v) ;;
                 v <- lift (py_get "flashcards" (PyList []) study_material) ;;
                 update_context (set_flashcards v) ;;
                 v <- lift (py_get "quiz" (PyList []) study_material) ;;
                 update_context (set_quiz v))
                (fun exc => update_context (set_error (error_text exc)))
        end
  end ;;
  fun s => (Ok (ctx s), s).

(** * The vocabulary of the properties *)

(** ** Running a computation *)

Definition outcome {A} (m : M A) (s : store) : result A := fst (m s).
Definition calls_after {A} (m : M A) (s : store) : list event := calls (snd (m s)).

Definition logged (ev : event) (s : store) : store :=
  mkStore (ctx s) (calls s ++ [ev]).

(** ** Whitespace *)

Fixpoint all_whitespace (s : string) : bool :=
  match s with
  | EmptyString => true
  | String c s' => isspace c && all_whitespace s'
  end.

Definition starts_with_space (s : string) : bool :=
  match s with
  | EmptyString => false
  | String c _ => isspace c
  end.

Fixpoint ends_with_space (s : string) : bool :=
  match s with
  | EmptyString => false
  | String c EmptyString => isspace c
  | String _ s' => ends_with_space s'
  end.

(** ** Pages and chunks *)

Definition text_page (t : string) : page := mkPage (Ok (Some t)).
Definition failed_page (e : exn) : page := mkPage (Raise e).

(** What a page adds to the output: nothing when its extraction raises,
    returns [None] or returns only whitespace, else its stripped text. *)
Definition page_chunk (p : page) : option string :=
  match extract_text p with
  | Ok (Some t) => if all_whitespace t then None else Some (strip t)
  | _ => None
  end.

(** The chunks of a document, in page order. *)
Definition kept_chunks (pages : list page) : list string := omap page_chunk pages.

(** A page that adds nothing. *)
Definition blank_page (p : page) : Prop :=
  match extract_text p with
  | Ok (Some t) => all_whitespace t = true
  | _ => True
  end.

(** [s.split(sep)] for a non-empty separator: the pieces a reader of the
    output gets when cutting it at the separators.  [skip] counts the
    characters of a separator still to pass over, [piece] is the piece read
    so far. *)
Fixpoint split_from (sep : string) (skip : nat) (piece : string) (s : string)
  : list string :=
  match s with
  | EmptyString => [piece]
  | String c s' =>
      match skip with
      | S k => split_from sep k piece s'
      | O =>
          if String.prefix sep s
          then piece :: split_from sep (String.length sep - 1) EmptyString s'
          else split_from sep 0 (piece ++ String c EmptyString) s'
      end
  end.

Definition split (sep s : string) : list string := split_from sep 0 EmptyString s.

(** A string that [strip] leaves as it is. *)
Definition stripped (s : string) : Prop := strip s = s.

(** ** Sample inputs *)

Definition empty_store : store := mkStore initial_context [].

Definition sample_pdf : UploadedFile := mkUploadedFile "notes.pdf" [].

(** A world in which every upload opens as the given pages; nothing else
    is available. *)
Definition world_of_pages (pages : list page) : World :=
  mkWorld (fun _ => None)
          (fun _ => Ok pages)
          (fun _ _ => Raise (LibraryError "ServiceUnavailable" "no service"))
          (fun _ => Raise (JSONDecodeError "Expecting value")).

Definition space : ascii := " "%char.

(** The page text [" a"]. *)
Definition padded_text : string := String space "a".

(** The page text ["a\n\n b"]: two paragraphs, the second one indented. *)
Definition two_paragraphs : string := "a" ++ blank_line ++ String space "b".

(** ** The model fallback, as the specification words it

    An ordered list of model names is consumed in order; the first call that
    returns ends the attempts, and the error of the last failed call is
    remembered. *)

Definition model_priority : list string :=
  [primary_model; fallback_model; latest_model].

Record attempts := mkAttempts {
  chosen : option response;     (* the response of the first call that returned *)
  last_failure : option exn;    (* the error of the last call that raised *)
  invoked : list string         (* the models called, in order *)
}.

Fixpoint first_success (w : World) (source : string) (models : list string)
    (last_error : option exn) : attempts :=
  match models with
  | [] => mkAttempts None last_error []
  | m :: rest =>
      match generate_content w m source with
      | Ok r => mkAttempts (Some r) last_error [m]
      | Raise e =>
          let a := first_success w source rest (Some e) in
          mkAttempts (chosen a) (last_failure a) (m :: invoked a)
      end
  end.

(** The credential is configured: [GEMINI_API_KEY] is set and not empty. *)
Definition key_present (w : World) : Prop :=
  exists k, getenv w "GEMINI_API_KEY" = Some k /\ k <> "".

(** The response the generator goes on with. *)
Definition chosen_response (w : World) (source : string) : option response :=
  chosen (first_success w source model_priority None).

(** The body of a response as the generator reads it: the [text] attribute,
    with [None] or a missing attribute read as the empty string; there is
    none when evaluating the attribute raises another exception. *)
Definition body (r : response) : option string :=
  match text r with
  | Ok v => Some (or_empty v)
  | Raise e => if is_AttributeError e then Some "" else None
  end.

Definition is_dict (v : pyval) : bool :=
  match v with PyDict _ => true | _ => false end.

(** The value of a field after the normalization: the value given when it has
    the expected type, else the default. *)
Definition field_or (isinstance_T : pyval -> bool) (default : pyval)
    (given : option pyval) : pyval :=
  match given with
  | Some v => if isinstance_T v then v else default
  | None => default
  end.

(** The operation at which the normalization of a payload that is not a
    dictionary raises. *)
Definition failing_operation (v : pyval) : pyop :=
  match v with
  | PyStr s => if str_contains "summary" s then OpGetItem else OpSetItem
  | PyList l => if existsb (equals_str "summary") l then OpGetItem else OpSetItem
  | _ => OpContains
  end.

(** ** Computations that only add to the list of calls *)

(** [m] returns the same result in every store, leaves the context alone and
    adds the calls [evs]. *)
Definition logs_only {A} (m : M A) (evs : list event) : Prop :=
  forall s, m s = (outcome m empty_store, mkStore (ctx s) (calls s ++ evs)).

Definition uniform {A} (m : M A) : Prop := exists evs, logs_only m evs.

Definition dquote : ascii := "034"%char.

(** [s] between double quotes. *)
Definition quoted (s : string) : string := String dquote (s ++ String dquote "").

(** A world with the given credential in which any upload opens as a
    one-page document, the models accepted by [answering] reply with the
    body [reply] and the others raise, and [json.loads] decodes [reply] as
    [decoded]. *)
Definition service_world (key : option string) (answering : string -> bool)
    (reply : option string) (decoded : result pyval) : World :=
  mkWorld
    (fun n => if String.eqb n "GEMINI_API_KEY" then key else None)
    (fun _ => Ok [text_page "Photosynthesis turns light into sugar."])
    (fun m _ => if answering m then Ok (mkResponse (Ok reply))
                else Raise (LibraryError "ResourceExhausted" "quota exceeded"))
    (fun raw => if String.eqb raw (or_empty reply) then decoded
                else Raise (JSONDecodeError "Expecting value")).

Definition only_model (m : string) : string -> bool := String.eqb m.

(** The body [{"summary": "Light becomes sugar.", "quiz": [], "level": 2}]
    and what it decodes to. *)
Definition object_body : string :=
  "{" ++ quoted "summary" ++ ": " ++ quoted "Light becomes sugar." ++ ", "
      ++ quoted "quiz" ++ ": [], " ++ quoted "level" ++ ": 2}".

Definition object_payload : gmap string pyval :=
  <["summary" := PyStr "Light becomes sugar."]>
    (<["quiz" := PyList []]> (<["level" := PyInt 2]> ∅)).

(** The body [["summary"]] and what it decodes to. *)
Definition array_body : string := "[" ++ quoted "summary" ++ "]".

Definition array_payload : pyval := PyList [PyStr "summary"].

Definition post_of (f : UploadedFile) : request :=
  mkRequest POST (<["pdf_file" := f]> ∅).

Definition post_without_file : request := mkRequest POST ∅.

(** What one normalization step does to a dictionary: the entry is kept when
    present with the expected type, and set to the default otherwise. *)
Definition set_default (key : string) (isinstance_T : pyval -> bool)
    (default : pyval) (d : gmap string pyval) : gmap string pyval :=
  match d !! key with
  | Some v => if isinstance_T v then d else <[key := default]> d
  | None => <[key := default]> d
  end.

(** ** Further vocabulary *)

(** The dictionary after the three normalization steps. *)
Definition normalized (d : gmap string pyval) : gmap string pyval :=
  set_default "quiz" is_list (PyList [])
    (set_default "flashcards" is_list (PyList [])
       (set_default "summary" is_str (PyStr "") d)).

(** A dictionary with the shape the docstring of [generate_study_material]
    promises: a string summary, a list of flashcards and a list of quiz
    items. *)
Definition conforming (d : gmap string pyval) : Prop :=
  (exists x, d !! "summary" = Some (PyStr x))
  /\ (exists l, d !! "flashcards" = Some (PyList l))
  /\ (exists q, d !! "quiz" = Some (PyList q)).

(** The rendered context shows no result. *)
Definition no_results (c : context) : Prop :=
  summary c = PyNone /\ flashcards c = PyList [] /\ quiz c = PyList [].

(** The four-character endings the handler takes for a PDF: a dot and the
    letters p, d, f in either case. *)
Definition pdf_ending (ext : string) : Prop :=
  exists p d f,
    ext = String "."%char (String p (String d (String f EmptyString)))
    /\ (p = "p"%char \/ p = "P"%char)
    /\ (d = "d"%char \/ d = "D"%char)
    /\ (f = "f"%char \/ f = "F"%char).

(** A world with the credential set in which any upload opens as the given
    pages, every model returns the response [r], and [json.loads] is
    [loads]. *)
Definition world_with_response (pages : list page) (r : response)
    (loads : string -> result pyval) : World :=
  mkWorld
    (fun n => if String.eqb n "GEMINI_API_KEY" then Some "k" else None)
    (fun _ => Ok pages)
    (fun _ _ => Ok r)
    loads.

(** A world in which no upload can be opened. *)
Definition world_without_pdf (e : exn) : World :=
  mkWorld (fun _ => None)
          (fun _ => Raise e)
          (fun _ _ => Raise (LibraryError "ServiceUnavailable" "no service"))
          (fun _ => Raise (JSONDecodeError "Expecting value")).

(** A payload that conforms, with one more key. *)
Definition conforming_payload : gmap string pyval :=
  <["summary" := PyStr "Light becomes sugar."]>
    (<["flashcards" := PyList [PyInt 1]]>
       (<["quiz" := PyList []]> (<["level" := PyInt 2]> ∅))).

(** The string of [n] characters [c]. *)
Fixpoint repeated (c : ascii) (n : nat) : string :=
  match n with
  | O => EmptyString
  | S k => String c (repeated c k)
  end.

(** The body of 2000 opening brackets, which is not JSON, and the error
    with which [json.loads] of CPython leaves it: the decoder recurses once
    for each bracket and runs into the recursion limit before it finds the
    text malformed. *)
Definition deep_body : string := repeated "["%char 2000.

Definition recursion_error : exn :=
  LibraryError "RecursionError"
    "maximum recursion depth exceeded while decoding a JSON array from a unicode string".

(** The body of 5000 digits 1, a JSON number, and the error with which
    [json.loads] of CPython 3.11 and later leaves it. *)
Definition long_number_body : string := repeated "1"%char 5000.

Definition digits_limit_error : exn :=
  LibraryError "ValueError"
    "Exceeds the limit (4300 digits) for integer string conversion: value has 5000 digits; use sys.set_int_max_str_digits() to increase the limit".

(** No separator begins within [c] when [c] is followed by [rest]. *)
Fixpoint no_cut_within (sep c rest : string) : bool :=
  match c with
  | EmptyString => true
  | String a c' =>
      negb (String.prefix sep (String a (c' ++ rest))) && no_cut_within sep c' rest
  end.

(** * Theorems *)

(** ** Whitespace *)

Lemma all_whitespace_lstrip s : all_whitespace (lstrip s) = all_whitespace s.
Proof.
  induction s as [|c s IH]; simpl; [reflexivity|].
  destruct (isspace c) eqn:Hc; simpl; [exact IH|].
  rewrite Hc. reflexivity.
Qed.

Lemma rstrip_empty_iff s : rstrip s = "" <-> all_whitespace s = true.
Proof.
  induction s as [|c s IH]; simpl; [tauto|].
  destruct (rstrip s) eqn:Hr.
  - destruct (isspace c); simpl.
    + split; intros _; [apply IH; reflexivity | reflexivity].
    + split; discriminate.
  - split; [discriminate|].
    intros H. apply andb_prop in H. destruct H as [_ H].
    apply IH in H. discriminate.
Qed.

Lemma strip_empty_iff s : strip s = "" <-> all_whitespace s = true.
Proof.
  unfold strip. rewrite rstrip_empty_iff, all_whitespace_lstrip. tauto.
Qed.

Lemma lstrip_no_leading_space s : starts_with_space (lstrip s) = false.
Proof.
  induction s as [|c s IH]; simpl; [reflexivity|].
  destruct (isspace c) eqn:Hc; [exact IH|]. simpl. exact Hc.
Qed.

Lemma rstrip_head c s :
  isspace c = false -> exists r, rstrip (String c s) = String c r.
Proof.
  intros Hc. simpl. destruct (rstrip s).
  - rewrite Hc. eexists; reflexivity.
  - eexists; reflexivity.
Qed.

Lemma rstrip_no_trailing_space s : ends_with_space (rstrip s) = false.
Proof.
  induction s as [|c s IH]; simpl; [reflexivity|].
  destruct (rstrip s) as [|d r] eqn:Hr.
  - destruct (isspace c) eqn:Hc; simpl; [reflexivity | exact Hc].
  - exact IH.
Qed.

Lemma rstrip_idempotent s : rstrip (rstrip s) = rstrip s.
Proof.
  induction s as [|c s IH]; simpl; [reflexivity|].
  destruct (rstrip s) as [|d r] eqn:Hr.
  - destruct (isspace c) eqn:Hc; simpl; [reflexivity|]. rewrite Hc. reflexivity.
  - change (rstrip (String c (String d r))) with
      (match rstrip (String d r) with
       | EmptyString => if isspace c then EmptyString else String c EmptyString
       | String a b => String c (String a b)
       end).
    rewrite IH. reflexivity.
Qed.

Lemma strip_no_leading_space s : starts_with_space (strip s) = false.
Proof.
  unfold strip. pose proof (lstrip_no_leading_space s) as H.
  destruct (lstrip s) as [|c t]; [reflexivity|]. simpl in H.
  destruct (rstrip_head c t H) as [r ->]. simpl. exact H.
Qed.

Lemma strip_no_trailing_space s : ends_with_space (strip s) = false.
Proof. apply rstrip_no_trailing_space. Qed.

Lemma lstrip_fixed s : starts_with_space s = false -> lstrip s = s.
Proof. destruct s as [|c s]; simpl; [reflexivity|]. intros ->. reflexivity. Qed.

Lemma strip_idempotent s : strip (strip s) = strip s.
Proof.
  unfold strip at 1.
  rewrite (lstrip_fixed (strip s)) by apply strip_no_leading_space.
  apply rstrip_idempotent.
Qed.

(** ** Joining *)

Lemma join_cons sep c d cs :
  join sep (c :: d :: cs) = c ++ sep ++ join sep (d :: cs).
Proof. reflexivity. Qed.

Lemma append_cons c a b : String c a ++ b = String c (a ++ b).
Proof. reflexivity. Qed.

Lemma append_empty_iff a b : a ++ b = "" <-> a = "" /\ b = "".
Proof.
  destruct a as [|c a].
  - change ("" ++ b) with b. tauto.
  - rewrite append_cons. split; [discriminate | intros [H _]; discriminate].
Qed.

Lemma starts_with_space_append a b :
  a <> "" -> starts_with_space (a ++ b) = starts_with_space a.
Proof. destruct a; [congruence | reflexivity]. Qed.

Lemma ends_with_space_append a b :
  b <> "" -> ends_with_space (a ++ b) = ends_with_space b.
Proof.
  intros Hb. induction a as [|c a IH]; [reflexivity|].
  rewrite append_cons. simpl.
  destruct (a ++ b) eqn:Hab.
  - apply append_empty_iff in Hab. tauto.
  - exact IH.
Qed.

Lemma join_nonempty sep c cs : c <> "" -> join sep (c :: cs) <> "".
Proof.
  intros Hc. destruct cs as [|d cs]; simpl; [exact Hc|].
  intros H. apply append_empty_iff in H. tauto.
Qed.

Lemma join_no_leading_space sep c cs :
  c <> "" -> starts_with_space (join sep (c :: cs)) = starts_with_space c.
Proof.
  intros Hc. destruct cs as [|d cs]; [reflexivity|].
  rewrite join_cons. apply starts_with_space_append, Hc.
Qed.

Lemma join_no_trailing_space sep cs :
  cs <> [] ->
  Forall (fun c => c <> "" /\ ends_with_space c = false) cs ->
  ends_with_space (join sep cs) = false.
Proof.
  induction cs as [|c cs IH]; [congruence|].
  intros _ Hall. inversion Hall as [|? ? [Hc He] Hrest]; subst.
  destruct cs as [|d cs]; [exact He|].
  rewrite join_cons, ends_with_space_append.
  - rewrite ends_with_space_append; [apply IH; [discriminate | exact Hrest]|].
    inversion Hrest as [|? ? [Hd _] _]; subst. apply join_nonempty, Hd.
  - intros H. apply append_empty_iff in H. destruct H as [_ H].
    inversion Hrest as [|? ? [Hd _] _]; subst.
    exact (join_nonempty sep d cs Hd H).
Qed.

(** ** extract_text_from_pdf *)

Lemma or_empty_some t : or_empty (Some t) = t.
Proof. destruct t; reflexivity. Qed.

Lemma str_truthy_strip t : str_truthy (strip t) = negb (all_whitespace t).
Proof.
  destruct (all_whitespace t) eqn:Hw.
  - apply strip_empty_iff in Hw. rewrite Hw. reflexivity.
  - destruct (strip t) eqn:Hs; [|reflexivity].
    apply strip_empty_iff in Hs. congruence.
Qed.

Lemma kept_chunks_cons p pages :
  kept_chunks (p :: pages) =
    match page_chunk p with
    | Some c => c :: kept_chunks pages
    | None => kept_chunks pages
    end.
Proof. reflexivity. Qed.

(** One turn of the loop. *)
Lemma collect_chunks_cons p rest text_chunks :
  collect_chunks (p :: rest) text_chunks =
    match page_chunk p with
    | Some cleaned => collect_chunks rest (text_chunks ++ [cleaned])%list
    | None => collect_chunks rest text_chunks
    end.
Proof.
  unfold page_chunk. simpl. destruct (extract_text p) as [[t|]|e]; try reflexivity.
  rewrite or_empty_some, str_truthy_strip.
  destruct (all_whitespace t); reflexivity.
Qed.

(** The loop appends, page after page, exactly the chunks of the pages. *)
Lemma collect_chunks_spec pages : forall text_chunks,
  collect_chunks pages text_chunks = (text_chunks ++ kept_chunks pages)%list.
Proof.
  induction pages as [|p pages IH]; intros acc.
  - simpl. rewrite app_nil_r. reflexivity.
  - rewrite collect_chunks_cons, kept_chunks_cons.
    destruct (page_chunk p) as [c|]; [|apply IH].
    rewrite IH, <- app_assoc. reflexivity.
Qed.

Lemma extract_opened w f pages s :
  pdfplumber_open w f = Ok pages ->
  extract_text_from_pdf w f s =
    (match kept_chunks pages with
     | [] => Raise (ValueError empty_content_message None)
     | cs => Ok (join blank_line cs)
     end, logged CallExtract s).
Proof.
  intros Hopen.
  unfold extract_text_from_pdf, bind, try_except, lift, log, ret, raise, logged.
  rewrite Hopen, collect_chunks_spec. simpl.
  destruct (kept_chunks pages); reflexivity.
Qed.

Lemma extract_unreadable w f e s :
  pdfplumber_open w f = Raise e ->
  extract_text_from_pdf w f s =
    (Raise (ValueError read_error_message (Some e)), logged CallExtract s).
Proof.
  intros Hopen.
  unfold extract_text_from_pdf, bind, try_except, lift, log, ret, raise, logged.
  rewrite Hopen. reflexivity.
Qed.

Lemma kept_chunks_text_pages texts :
  Forall (fun t => all_whitespace t = false) texts ->
  kept_chunks (map text_page texts) = map strip texts.
Proof.
  induction 1 as [|t texts Ht _ IH]; [reflexivity|].
  change (map text_page (t :: texts)) with (text_page t :: map text_page texts).
  rewrite kept_chunks_cons, IH. unfold page_chunk. simpl.
  rewrite Ht. reflexivity.
Qed.

Lemma kept_chunks_blank pages :
  Forall blank_page pages -> kept_chunks pages = [].
Proof.
  induction 1 as [|p pages Hp _ IH]; [reflexivity|].
  rewrite kept_chunks_cons, IH.
  unfold blank_page in Hp. unfold page_chunk.
  destruct (extract_text p) as [[t|]|e]; try reflexivity.
  rewrite Hp. reflexivity.
Qed.

Lemma kept_chunks_stripped pages :
  Forall (fun c => stripped c /\ c <> "") (kept_chunks pages).
Proof.
  induction pages as [|p pages IH]; [constructor|].
  rewrite kept_chunks_cons. unfold page_chunk.
  destruct (extract_text p) as [[t|]|e]; try exact IH.
  destruct (all_whitespace t) eqn:Hw; [exact IH|].
  constructor; [|exact IH]. split.
  - apply strip_idempotent.
  - intros H. apply strip_empty_iff in H. congruence.
Qed.

Lemma stripped_no_space c :
  stripped c -> starts_with_space c = false /\ ends_with_space c = false.
Proof.
  unfold stripped. intros <-. split.
  - apply strip_no_leading_space.
  - apply strip_no_trailing_space.
Qed.

Lemma stripped_fixed t :
  starts_with_space t = false -> ends_with_space t = false -> stripped t.
Proof.
  unfold stripped, strip. intros Hs He. rewrite (lstrip_fixed t Hs).
  clear Hs. induction t as [|c t IH]; [reflexivity|].
  simpl. destruct t as [|d t].
  - simpl in *. rewrite He. reflexivity.
  - rewrite IH by exact He. reflexivity.
Qed.

Lemma map_strip_stripped texts : Forall stripped texts -> map strip texts = texts.
Proof.
  induction 1 as [|t texts Ht _ IH]; [reflexivity|].
  cbn [map]. rewrite IH. f_equal. exact Ht.
Qed.

(** C4, as amended.  For every PDF that opens: when it has at least one page
    and every page extracts text that is not whitespace only, the output is
    the stripped page texts joined in page order by a blank line, and it is
    the page texts themselves when none of them begins or ends with
    whitespace; in general the output is the chunks of the pages (pages that
    fail or are blank are left out, the order is kept) joined by a blank
    line, when there is at least one. *)
Theorem extract_joins_stripped_page_texts w f pages s :
  pdfplumber_open w f = Ok pages ->
  (forall texts,
      pages = map text_page texts -> texts <> [] ->
      Forall (fun t => all_whitespace t = false) texts ->
      outcome (extract_text_from_pdf w f) s = Ok (join blank_line (map strip texts))
      /\ (Forall stripped texts ->
          outcome (extract_text_from_pdf w f) s = Ok (join blank_line texts)))
  /\ (kept_chunks pages <> [] ->
      outcome (extract_text_from_pdf w f) s = Ok (join blank_line (kept_chunks pages))).
Proof.
  intros Hopen. unfold outcome. rewrite (extract_opened w f pages s Hopen).
  cbn [fst]. split.
  - intros texts -> Hne Hall.
    rewrite (kept_chunks_text_pages texts Hall).
    destruct texts as [|t texts]; [congruence|]. cbn [map].
    split; [reflexivity|].
    intros Hstripped. pose proof (map_strip_stripped _ Hstripped) as Hfix.
    cbn [map] in Hfix. rewrite Hfix. reflexivity.
  - intros Hne. destruct (kept_chunks pages); [congruence | reflexivity].
Qed.

Lemma extract_joins_stripped_page_texts_witness :
  outcome (extract_text_from_pdf (world_of_pages [text_page padded_text; text_page "b"])
             sample_pdf) empty_store
  = Ok (join blank_line (map strip [padded_text; "b"])).
Proof.
  destruct (extract_joins_stripped_page_texts
              (world_of_pages [text_page padded_text; text_page "b"])
              sample_pdf [text_page padded_text; text_page "b"] empty_store eq_refl)
    as [Htexts _].
  destruct (Htexts [padded_text; "b"] eq_refl) as [Hout _].
  - discriminate.
  - repeat constructor.
  - exact Hout.
Defined.

(** C4 as worded fails on a page whose text begins with a space: the page
    extracts the non-empty text [" a"], and the output is ["a"], not the
    page text. *)
Lemma extract_page_texts_verbatim_counterexample :
  pdfplumber_open (world_of_pages [text_page padded_text]) sample_pdf
    = Ok (map text_page [padded_text])
  /\ Forall (fun t => t <> "") [padded_text]
  /\ outcome (extract_text_from_pdf (world_of_pages [text_page padded_text]) sample_pdf)
       empty_store = Ok "a"
  /\ outcome (extract_text_from_pdf (world_of_pages [text_page padded_text]) sample_pdf)
       empty_store <> Ok (join blank_line [padded_text]).
Proof.
  split; [reflexivity|]. split; [repeat constructor; discriminate|].
  split; [reflexivity|]. vm_compute. discriminate.
Qed.

(** C5.  When the PDF opens and every page is blank (its extraction raises,
    returns [None], or returns text that is empty or whitespace only), the
    extraction raises the [ValueError] "No extractable text was found in the
    PDF."; and whenever the extraction returns, the text it returns is not
    empty. *)
Theorem extract_blank_document_fails w f s :
  (forall pages,
      pdfplumber_open w f = Ok pages -> Forall blank_page pages ->
      outcome (extract_text_from_pdf w f) s
      = Raise (ValueError empty_content_message None))
  /\ (forall out, outcome (extract_text_from_pdf w f) s = Ok out -> out <> "").
Proof.
  unfold outcome. split.
  - intros pages Hopen Hblank.
    rewrite (extract_opened w f pages s Hopen), (kept_chunks_blank pages Hblank).
    reflexivity.
  - intros out. destruct (pdfplumber_open w f) as [pages|e] eqn:Hopen.
    + rewrite (extract_opened w f pages s Hopen). cbn [fst].
      pose proof (kept_chunks_stripped pages) as Hall.
      destruct (kept_chunks pages) as [|c cs]; [discriminate|].
      intros [= <-]. inversion Hall as [|? ? [_ Hc] _]; subst.
      apply join_nonempty, Hc.
    + rewrite (extract_unreadable w f e s Hopen). discriminate.
Qed.

Lemma extract_blank_document_fails_witness :
  outcome (extract_text_from_pdf
             (world_of_pages [text_page (String space ""); mkPage (Ok None);
                              failed_page (LibraryError "PDFSyntaxError" "bad page")])
             sample_pdf) empty_store
  = Raise (ValueError empty_content_message None)
  /\ "a" <> "".
Proof.
  split.
  - apply (proj1 (extract_blank_document_fails
                    (world_of_pages
                       [text_page (String space ""); mkPage (Ok None);
                        failed_page (LibraryError "PDFSyntaxError" "bad page")])
                    sample_pdf empty_store) _ eq_refl).
    repeat constructor.
  - apply (proj2 (extract_blank_document_fails
                    (world_of_pages [text_page padded_text]) sample_pdf empty_store)).
    reflexivity.
Defined.

(** *** Cutting the output at blank lines *)

Lemma append_empty_r a : a ++ "" = a.
Proof. induction a as [|c a IH]; [reflexivity|]. rewrite append_cons, IH. reflexivity. Qed.

Lemma append_assoc_char piece a c : (piece ++ String a "") ++ c = piece ++ String a c.
Proof.
  induction piece as [|x piece IH]; [reflexivity|].
  rewrite !append_cons, IH. reflexivity.
Qed.

Lemma prefix_empty s : String.prefix "" s = true.
Proof. destruct s; reflexivity. Qed.

Lemma prefix_blank_line_two a b s t :
  String.prefix blank_line (String a (String b s))
  = String.prefix blank_line (String a (String b t)).
Proof.
  unfold blank_line. cbn [String.prefix].
  destruct (ascii_dec newline a); [|reflexivity].
  destruct (ascii_dec newline b); [|reflexivity].
  rewrite !prefix_empty. reflexivity.
Qed.

Lemma prefix_blank_line_after a rest :
  isspace a = false -> String.prefix blank_line (String a rest) = false.
Proof.
  intros Ha. unfold blank_line. cbn [String.prefix].
  destruct (ascii_dec newline a) as [<-|]; [discriminate | reflexivity].
Qed.

(** In a chunk without a blank line inside that does not end with
    whitespace, no separator begins, whatever follows the chunk. *)
Lemma no_cut_within_chunk c rest :
  str_contains blank_line c = false -> ends_with_space c = false ->
  no_cut_within blank_line c rest = true.
Proof.
  induction c as [|a c IH]; [reflexivity|].
  intros Hin Hend. cbn [str_contains] in Hin. apply orb_false_elim in Hin.
  destruct Hin as [Hhere Hlater]. cbn [no_cut_within].
  destruct c as [|b c].
  - cbn in Hend. change ("" ++ rest) with rest.
    rewrite (prefix_blank_line_after a rest Hend). reflexivity.
  - rewrite append_cons, (prefix_blank_line_two a b _ c), Hhere.
    cbn [negb andb]. apply IH; [exact Hlater | exact Hend].
Qed.

Lemma split_from_through sep c : forall piece rest,
  no_cut_within sep c rest = true ->
  split_from sep 0 piece (c ++ rest) = split_from sep 0 (piece ++ c) rest.
Proof.
  induction c as [|a c IH]; intros piece rest Hno.
  - rewrite append_empty_r. reflexivity.
  - cbn [no_cut_within] in Hno. apply andb_prop in Hno. destruct Hno as [Hhere Hlater].
    apply negb_true_iff in Hhere.
    rewrite append_cons. cbn [split_from]. rewrite Hhere.
    rewrite (IH _ _ Hlater), append_assoc_char. reflexivity.
Qed.

Lemma split_from_cut piece rest :
  split_from blank_line 0 piece (blank_line ++ rest)
  = piece :: split_from blank_line 0 "" rest.
Proof.
  unfold blank_line. rewrite !append_cons. change ("" ++ rest) with rest.
  cbn [split_from String.prefix].
  destruct (ascii_dec newline newline) as [_|Hne]; [|congruence].
  rewrite prefix_empty. reflexivity.
Qed.

(** Cutting a join of chunks at the blank lines gives the chunks back when
    no chunk has a blank line inside or ends with whitespace. *)
Lemma split_join chunks :
  chunks <> [] ->
  Forall (fun c => str_contains blank_line c = false /\ ends_with_space c = false)
    chunks ->
  split blank_line (join blank_line chunks) = chunks.
Proof.
  unfold split. induction chunks as [|c chunks IH]; [congruence|].
  intros _ Hall. inversion Hall as [|? ? [Hin Hend] Hrest]; subst.
  destruct chunks as [|d chunks].
  - change (join blank_line [c]) with c. rewrite <- (append_empty_r c) at 1.
    rewrite (split_from_through _ c _ _ (no_cut_within_chunk c "" Hin Hend)).
    reflexivity.
  - rewrite join_cons.
    rewrite (split_from_through _ c _ _ (no_cut_within_chunk c _ Hin Hend)).
    change ("" ++ c) with c. rewrite split_from_cut.
    rewrite IH; [reflexivity | discriminate | exact Hrest].
Qed.

(** C10, as amended.  Whenever the extraction returns, the PDF opened and the
    output is the chunks of its pages joined by blank lines; there is at
    least one chunk, every chunk is a page text with its leading and trailing
    whitespace stripped and is not empty, and so the output neither begins
    nor ends with whitespace.  When no chunk has a blank line inside, the
    chunks are the pieces one gets by cutting the output at the blank lines,
    so that every such piece is stripped and not empty. *)
Theorem extract_output_is_stripped_chunks w f s out :
  outcome (extract_text_from_pdf w f) s = Ok out ->
  exists pages,
    pdfplumber_open w f = Ok pages
    /\ out = join blank_line (kept_chunks pages)
    /\ kept_chunks pages <> []
    /\ Forall (fun c => stripped c /\ c <> "") (kept_chunks pages)
    /\ starts_with_space out = false
    /\ ends_with_space out = false
    /\ (Forall (fun c => str_contains blank_line c = false) (kept_chunks pages) ->
        split blank_line out = kept_chunks pages
        /\ Forall (fun c => stripped c /\ c <> "") (split blank_line out)).
Proof.
  unfold outcome. destruct (pdfplumber_open w f) as [pages|e] eqn:Hopen.
  - rewrite (extract_opened w f pages s Hopen). cbn [fst].
    pose proof (kept_chunks_stripped pages) as Hall.
    destruct (kept_chunks pages) as [|c cs] eqn:Hk; [discriminate|].
    intros Hout.
    assert (out = join blank_line (c :: cs)) as -> by congruence. clear Hout.
    exists pages. rewrite Hk.
    split; [reflexivity|]. split; [reflexivity|]. split; [discriminate|].
    split; [exact Hall|].
    assert (Hends : Forall (fun d => d <> "" /\ ends_with_space d = false) (c :: cs)).
    { eapply Forall_impl; [exact Hall|]. cbv beta.
      intros d [Hd Hne]. split; [exact Hne | apply (stripped_no_space d Hd)]. }
    inversion Hall as [|? ? [Hs Hc] _]; subst. split; [|split].
    + rewrite join_no_leading_space by exact Hc.
      apply (stripped_no_space c Hs).
    + apply join_no_trailing_space; [discriminate | exact Hends].
    + intros Hplain.
      assert (Hsplit : split blank_line (join blank_line (c :: cs)) = c :: cs).
      { apply split_join; [discriminate|].
        apply Forall_forall. intros d Hd. split.
        - apply (proj1 (Forall_forall _ _) Hplain d Hd).
        - apply (proj1 (Forall_forall _ _) Hends d Hd). }
      rewrite Hsplit. split; [reflexivity | exact Hall].
  - rewrite (extract_unreadable w f e s Hopen). discriminate.
Qed.

Lemma extract_output_is_stripped_chunks_witness :
  exists pages,
    pdfplumber_open (world_of_pages [text_page padded_text; text_page "b"]) sample_pdf
      = Ok pages
    /\ join blank_line ["a"; "b"] = join blank_line (kept_chunks pages)
    /\ kept_chunks pages <> []
    /\ Forall (fun c => stripped c /\ c <> "") (kept_chunks pages)
    /\ starts_with_space (join blank_line ["a"; "b"]) = false
    /\ ends_with_space (join blank_line ["a"; "b"]) = false
    /\ (Forall (fun c => str_contains blank_line c = false) (kept_chunks pages) ->
        split blank_line (join blank_line ["a"; "b"]) = kept_chunks pages
        /\ Forall (fun c => stripped c /\ c <> "")
             (split blank_line (join blank_line ["a"; "b"]))).
Proof.
  apply (extract_output_is_stripped_chunks
           (world_of_pages [text_page padded_text; text_page "b"])
           sample_pdf empty_store).
  reflexivity.
Defined.

(** C10 as worded fails when a page text has a blank line inside: the
    output for the single page ["a\n\n b"] is that text, and cutting it at
    the blank line gives the pieces ["a"] and [" b"], the second with a
    leading space.  Such a page text is one [extract_text] can return:
    pdfplumber builds it from the text of the characters of the page, and
    the text of a character is whatever string the ToUnicode map of its font
    gives, line feeds included. *)
Lemma extract_split_pieces_counterexample :
  outcome (extract_text_from_pdf (world_of_pages [text_page two_paragraphs]) sample_pdf)
    empty_store = Ok two_paragraphs
  /\ split blank_line two_paragraphs = ["a"; String space "b"]
  /\ ~ stripped (String space "b").
Proof.
  split; [reflexivity|]. split; [reflexivity|].
  unfold stripped. vm_compute. discriminate.
Qed.

(** ** Computations that only add to the list of calls *)

Lemma store_eta s : mkStore (ctx s) (calls s ++ []) = s.
Proof. destruct s. cbn. rewrite app_nil_r. reflexivity. Qed.

Lemma logs_only_ret {A} (a : A) : logs_only (ret a) [].
Proof. intros s. unfold ret, outcome. rewrite store_eta. reflexivity. Qed.

Lemma logs_only_raise {A} e : logs_only (@raise A e) [].
Proof. intros s. unfold raise, outcome. rewrite store_eta. reflexivity. Qed.

Lemma logs_only_lift {A} (r : result A) : logs_only (lift r) [].
Proof. intros s. unfold lift, outcome. rewrite store_eta. reflexivity. Qed.

Lemma logs_only_outcome {A} (m : M A) evs s :
  logs_only m evs -> outcome m s = outcome m empty_store.
Proof. intros Hm. unfold outcome at 1. rewrite (Hm s). reflexivity. Qed.

Lemma logs_only_bind_ok {A B} (m : M A) (k : A -> M B) a e1 e2 :
  logs_only m e1 -> outcome m empty_store = Ok a -> logs_only (k a) e2 ->
  logs_only (bind m k) (e1 ++ e2).
Proof.
  intros Hm Ha Hk s. unfold outcome at 1. unfold bind.
  rewrite (Hm s), (Hm empty_store), Ha, !(Hk _). cbn.
  rewrite app_assoc. reflexivity.
Qed.

Lemma logs_only_bind_raise {A B} (m : M A) (k : A -> M B) e e1 :
  logs_only m e1 -> outcome m empty_store = Raise e ->
  logs_only (bind m k) e1.
Proof.
  intros Hm He s. unfold outcome at 1. unfold bind.
  rewrite (Hm s), (Hm empty_store), He. reflexivity.
Qed.

Lemma logs_only_try_ok {A} (m : M A) (h : exn -> M A) a e1 :
  logs_only m e1 -> outcome m empty_store = Ok a ->
  logs_only (try_except m h) e1.
Proof.
  intros Hm Ha s. unfold outcome at 1. unfold try_except.
  rewrite (Hm s), (Hm empty_store), Ha. reflexivity.
Qed.

Lemma logs_only_try_raise {A} (m : M A) (h : exn -> M A) e e1 e2 :
  logs_only m e1 -> outcome m empty_store = Raise e -> logs_only (h e) e2 ->
  logs_only (try_except m h) (e1 ++ e2).
Proof.
  intros Hm He Hh s. unfold outcome at 1. unfold try_except.
  rewrite (Hm s), (Hm empty_store), He, !(Hh _). cbn.
  rewrite app_assoc. reflexivity.
Qed.

(** Computations that touch nothing. *)

Lemma silent_bind {A B} (m : M A) (k : A -> M B) :
  logs_only m [] -> (forall a, logs_only (k a) []) -> logs_only (bind m k) [].
Proof.
  intros Hm Hk. destruct (outcome m empty_store) as [a|e] eqn:Hr.
  - apply (logs_only_bind_ok m k a [] [] Hm Hr (Hk a)).
  - apply (logs_only_bind_raise m k e [] Hm Hr).
Qed.

Lemma silent_try {A} (m : M A) (h : exn -> M A) :
  logs_only m [] -> (forall e, logs_only (h e) []) -> logs_only (try_except m h) [].
Proof.
  intros Hm Hh. destruct (outcome m empty_store) as [a|e] eqn:Hr.
  - apply (logs_only_try_ok m h a [] Hm Hr).
  - apply (logs_only_try_raise m h e [] [] Hm Hr (Hh e)).
Qed.

Lemma silent_try_class {A} is_C (m : M A) (h : exn -> M A) :
  logs_only m [] -> (forall e, logs_only (h e) []) ->
  logs_only (try_except_class is_C m h) [].
Proof.
  intros Hm Hh. apply silent_try; [exact Hm|].
  intros e. destruct (is_C e); [apply Hh | apply logs_only_raise].
Qed.

Lemma uniform_outcome {A} (m : M A) s :
  uniform m -> outcome m s = outcome m empty_store.
Proof. intros [evs Hm]. apply (logs_only_outcome m evs s Hm). Qed.

(** ** generate_study_material: the model fallback *)

(** The nested [try] statements do what the ordered list says. *)
Lemma attempt_models_spec w source :
  logs_only (attempt_models w source)
    (map CallModel (invoked (first_success w source model_priority None)))
  /\ outcome (attempt_models w source) empty_store
     = Ok (chosen (first_success w source model_priority None),
           last_failure (first_success w source model_priority None)).
Proof.
  unfold logs_only, outcome, attempt_models, try_except, bind, call_model, log, lift, ret.
  unfold model_priority, first_success.
  destruct (generate_content w primary_model source) as [rA|eA]; cbn.
  { split; [intros s|]; reflexivity. }
  destruct (generate_content w fallback_model source) as [rB|eB]; cbn.
  { split; [intros s; rewrite <- app_assoc|]; reflexivity. }
  destruct (generate_content w latest_model source) as [rC|eC]; cbn;
    (split; [intros s; rewrite <- !app_assoc|]; reflexivity).
Qed.

Lemma key_present_truthy w :
  key_present w -> str_truthy (or_empty (getenv w "GEMINI_API_KEY")) = true.
Proof.
  intros [k [-> Hk]]. rewrite or_empty_some. destruct k; [congruence | reflexivity].
Qed.

Lemma getattr_text_silent r : logs_only (getattr_text r) [].
Proof.
  apply silent_try_class; [apply logs_only_lift | intros e; apply logs_only_ret].
Qed.

Lemma normalize_field_silent key isT default data :
  logs_only (normalize_field key isT default data) [].
Proof.
  unfold normalize_field. apply silent_bind.
  - apply silent_bind; [apply logs_only_lift | intros a; apply logs_only_ret].
  - intros absent. apply silent_bind.
    + destruct absent; [apply logs_only_ret|].
      apply silent_bind; [apply logs_only_lift | intros a; apply logs_only_ret].
    + intros reset. destruct reset; [apply logs_only_lift | apply logs_only_ret].
Qed.

Lemma normalize_silent data : logs_only (normalize data) [].
Proof.
  unfold normalize. repeat (apply silent_bind; [apply normalize_field_silent | intros ?]).
  apply logs_only_ret.
Qed.

Lemma read_response_silent w r : logs_only (read_response w r) [].
Proof.
  unfold read_response. apply silent_bind; [apply getattr_text_silent|].
  intros v. destruct (negb (str_truthy (or_empty v))); [apply logs_only_raise|].
  apply silent_bind; [|intros data; apply normalize_silent].
  apply silent_try_class; [apply logs_only_lift | intros e; apply logs_only_raise].
Qed.

(** With the credential configured, the generator is the model fallback
    followed by the reading of the chosen response. *)
Lemma generate_with_key w source s :
  key_present w ->
  generate_study_material w source s =
    (match chosen (first_success w source model_priority None) with
     | None =>
         Raise (RuntimeError all_failed_message
                  (last_failure (first_success w source model_priority None)))
     | Some r => outcome (read_response w r) empty_store
     end,
     mkStore (ctx s)
       (calls s ++ CallGenerate
          :: map CallModel (invoked (first_success w source model_priority None)))).
Proof.
  intros Hkey. destruct (attempt_models_spec w source) as [Hlog Hout].
  unfold generate_study_material. rewrite (key_present_truthy w Hkey). cbn [negb].
  unfold bind at 1. unfold log at 1. unfold bind.
  rewrite (Hlog _), Hout. cbn [ctx calls].
  rewrite <- app_assoc. cbn [app].
  destruct (chosen (first_success w source model_priority None)) as [r|].
  - rewrite (read_response_silent w r _). cbn [ctx calls].
    rewrite app_nil_r. reflexivity.
  - reflexivity.
Qed.

Lemma generate_without_key w source s :
  getenv w "GEMINI_API_KEY" = None \/ getenv w "GEMINI_API_KEY" = Some "" ->
  generate_study_material w source s =
    (Raise (RuntimeError missing_key_message None), logged CallGenerate s).
Proof.
  intros [H|H]; unfold generate_study_material, bind, log, raise, logged;
    rewrite H; reflexivity.
Qed.

Lemma read_response_outcome w r s :
  outcome (read_response w r) s = outcome (read_response w r) empty_store.
Proof. apply (logs_only_outcome _ [] s), read_response_silent. Qed.

(** C1.  With the credential configured, the models are called in the order
    primary, fallback, latest, and the first call that returns ends the
    attempts: its response is the one read, and no later model is called.
    In particular, when the primary model raises and the fallback returns,
    the result is what reading the fallback's response gives and the latest
    model is not called.  When all three raise, the generator raises the
    [RuntimeError] "All Gemini model attempts failed. ..." whose cause is the
    error of the third call. *)
Theorem generate_tries_models_in_order w source s :
  key_present w ->
  (forall rA,
      generate_content w primary_model source = Ok rA ->
      outcome (generate_study_material w source) s = outcome (read_response w rA) s
      /\ calls_after (generate_study_material w source) s
         = (calls s ++ [CallGenerate; CallModel primary_model])%list)
  /\ (forall eA rB,
      generate_content w primary_model source = Raise eA ->
      generate_content w fallback_model source = Ok rB ->
      outcome (generate_study_material w source) s = outcome (read_response w rB) s
      /\ calls_after (generate_study_material w source) s
         = (calls s ++ [CallGenerate; CallModel primary_model;
                        CallModel fallback_model])%list)
  /\ (forall eA eB rC,
      generate_content w primary_model source = Raise eA ->
      generate_content w fallback_model source = Raise eB ->
      generate_content w latest_model source = Ok rC ->
      outcome (generate_study_material w source) s = outcome (read_response w rC) s
      /\ calls_after (generate_study_material w source) s
         = (calls s ++ [CallGenerate; CallModel primary_model;
                        CallModel fallback_model; CallModel latest_model])%list)
  /\ (forall eA eB eC,
      generate_content w primary_model source = Raise eA ->
      generate_content w fallback_model source = Raise eB ->
      generate_content w latest_model source = Raise eC ->
      outcome (generate_study_material w source) s
        = Raise (RuntimeError all_failed_message (Some eC))
      /\ calls_after (generate_study_material w source) s
         = (calls s ++ [CallGenerate; CallModel primary_model;
                        CallModel fallback_model; CallModel latest_model])%list).
Proof.
  intros Hkey. unfold outcome at 1 3 5 7, calls_after.
  rewrite (generate_with_key w source s Hkey).
  unfold model_priority, first_success.
  repeat split; intros; rewrite ?read_response_outcome;
    repeat match goal with H : generate_content _ _ _ = _ |- _ => rewrite H; clear H end;
    reflexivity.
Qed.

(** C8.  When [GEMINI_API_KEY] is not set, or is set to the empty string,
    the generator raises the [RuntimeError] "GEMINI_API_KEY is not set in
    the environment." and no model has been called. *)
Theorem generate_requires_api_key w source s :
  getenv w "GEMINI_API_KEY" = None \/ getenv w "GEMINI_API_KEY" = Some "" ->
  outcome (generate_study_material w source) s
    = Raise (RuntimeError missing_key_message None)
  /\ calls_after (generate_study_material w source) s = (calls s ++ [CallGenerate])%list
  /\ forall m, ~ In (CallModel m)
                 (skipn (length (calls s))
                    (calls_after (generate_study_material w source) s)).
Proof.
  intros H. unfold outcome, calls_after.
  rewrite (generate_without_key w source s H). cbn.
  split; [reflexivity|]. split; [reflexivity|].
  intros m. rewrite skipn_app, skipn_all, Nat.sub_diag. cbn.
  intros [Hin|[]]. discriminate.
Qed.

Lemma generate_tries_models_in_order_witness :
  outcome (generate_study_material
             (service_world (Some "k") (only_model fallback_model)
                (Some object_body) (Ok (PyDict object_payload)))
             "doc") empty_store
  = outcome (read_response
               (service_world (Some "k") (only_model fallback_model)
                  (Some object_body) (Ok (PyDict object_payload)))
               (mkResponse (Ok (Some object_body)))) empty_store
  /\ calls_after (generate_study_material
                    (service_world (Some "k") (only_model fallback_model)
                       (Some object_body) (Ok (PyDict object_payload)))
                    "doc") empty_store
     = [CallGenerate; CallModel primary_model; CallModel fallback_model].
Proof.
  assert (Hkey : key_present (service_world (Some "k") (only_model fallback_model)
                                (Some object_body) (Ok (PyDict object_payload)))).
  { exists "k". split; [reflexivity | discriminate]. }
  destruct (generate_tries_models_in_order _ "doc" empty_store Hkey)
    as (_ & Hfallback & _).
  apply (Hfallback (LibraryError "ResourceExhausted" "quota exceeded")
           (mkResponse (Ok (Some object_body)))); reflexivity.
Defined.

Lemma generate_requires_api_key_witness :
  outcome (generate_study_material
             (service_world None (only_model primary_model)
                (Some object_body) (Ok (PyDict object_payload)))
             "doc") empty_store
  = Raise (RuntimeError missing_key_message None)
  /\ calls_after (generate_study_material
                    (service_world None (only_model primary_model)
                       (Some object_body) (Ok (PyDict object_payload)))
                    "doc") empty_store
     = [CallGenerate].
Proof.
  destruct (generate_requires_api_key
              (service_world None (only_model primary_model)
                 (Some object_body) (Ok (PyDict object_payload)))
              "doc" empty_store) as (Hout & Hcalls & _).
  - left. reflexivity.
  - split; [exact Hout | exact Hcalls].
Defined.

(** ** generate_study_material: reading the response *)

Lemma read_response_body w r raw :
  body r = Some raw ->
  outcome (read_response w r) empty_store =
    if str_truthy raw
    then match json_loads w raw with
         | Ok data => outcome (normalize data) empty_store
         | Raise e =>
             if is_JSONDecodeError e
             then Raise (ValueError invalid_json_message (Some e))
             else Raise e
         end
    else Raise (ValueError empty_response_message None).
Proof.
  unfold body. intros Hbody.
  assert (Hget : exists v, getattr_text r empty_store = (Ok v, empty_store)
                           /\ or_empty v = raw).
  { unfold getattr_text, try_except_class, try_except, lift, ret, raise.
    destruct (text r) as [v|e].
    - injection Hbody as <-. exists v. split; reflexivity.
    - destruct (is_AttributeError e); [|discriminate].
      injection Hbody as <-. exists (Some ""). split; reflexivity. }
  destruct Hget as (v & Hget & Hv).
  unfold outcome, read_response. unfold bind at 1. rewrite Hget, Hv.
  destruct (str_truthy raw); [|reflexivity]. cbn [negb].
  unfold bind, try_except_class, try_except, lift, raise.
  destruct (json_loads w raw) as [data|e]; [reflexivity|].
  destruct (is_JSONDecodeError e); reflexivity.
Qed.

Lemma generate_reads_chosen w source s r :
  key_present w -> chosen_response w source = Some r ->
  outcome (generate_study_material w source) s
    = outcome (read_response w r) empty_store.
Proof.
  unfold chosen_response. intros Hkey Hr. unfold outcome at 1.
  rewrite (generate_with_key w source s Hkey), Hr. reflexivity.
Qed.

Lemma str_truthy_true raw : raw <> "" -> str_truthy raw = true.
Proof. destruct raw; [congruence | reflexivity]. Qed.

(** C6, as amended.  With the credential configured and a model call that
    returned: when the body of the response is empty the generator raises the
    [ValueError] "Gemini returned an empty response."; when the body is not
    empty and [json.loads] rejects it with a [JSONDecodeError], the generator
    raises the [ValueError] "Gemini did not return valid JSON." caused by
    that error; when [json.loads] raises anything else on the body, that
    exception leaves the generator as it is. *)
Theorem generate_rejects_empty_or_invalid_body w source s r :
  key_present w ->
  chosen_response w source = Some r ->
  (body r = Some "" ->
   outcome (generate_study_material w source) s
     = Raise (ValueError empty_response_message None))
  /\ (forall raw msg,
      body r = Some raw -> raw <> "" ->
      json_loads w raw = Raise (JSONDecodeError msg) ->
      outcome (generate_study_material w source) s
        = Raise (ValueError invalid_json_message (Some (JSONDecodeError msg))))
  /\ (forall raw e,
      body r = Some raw -> raw <> "" ->
      json_loads w raw = Raise e -> is_JSONDecodeError e = false ->
      outcome (generate_study_material w source) s = Raise e).
Proof.
  intros Hkey Hr. rewrite (generate_reads_chosen w source s r Hkey Hr).
  split; [|split].
  - intros Hbody. rewrite (read_response_body w r "" Hbody). reflexivity.
  - intros raw msg Hbody Hraw Hloads.
    rewrite (read_response_body w r raw Hbody), (str_truthy_true raw Hraw), Hloads.
    reflexivity.
  - intros raw e Hbody Hraw Hloads He.
    rewrite (read_response_body w r raw Hbody), (str_truthy_true raw Hraw), Hloads, He.
    reflexivity.
Qed.

Lemma generate_rejects_empty_or_invalid_body_witness :
  outcome (generate_study_material
             (service_world (Some "k") (only_model primary_model) None
                (Raise (JSONDecodeError "Expecting value")))
             "doc") empty_store
  = Raise (ValueError empty_response_message None)
  /\ outcome (generate_study_material
                (service_world (Some "k") (only_model latest_model) (Some "Sorry.")
                   (Raise (JSONDecodeError "Expecting value")))
                "doc") empty_store
     = Raise (ValueError invalid_json_message
                (Some (JSONDecodeError "Expecting value"))).
Proof.
  split.
  - assert (Hkey : key_present
                     (service_world (Some "k") (only_model primary_model) None
                        (Raise (JSONDecodeError "Expecting value")))).
    { exists "k". split; [reflexivity | discriminate]. }
    assert (Hr : chosen_response
                   (service_world (Some "k") (only_model primary_model) None
                      (Raise (JSONDecodeError "Expecting value"))) "doc"
                 = Some (mkResponse (Ok None))) by reflexivity.
    destruct (generate_rejects_empty_or_invalid_body _ "doc" empty_store _ Hkey Hr)
      as (Hempty & _ & _).
    apply Hempty. reflexivity.
  - assert (Hkey : key_present
                     (service_world (Some "k") (only_model latest_model) (Some "Sorry.")
                        (Raise (JSONDecodeError "Expecting value")))).
    { exists "k". split; [reflexivity | discriminate]. }
    assert (Hr : chosen_response
                   (service_world (Some "k") (only_model latest_model) (Some "Sorry.")
                      (Raise (JSONDecodeError "Expecting value"))) "doc"
                 = Some (mkResponse (Ok (Some "Sorry.")))) by reflexivity.
    destruct (generate_rejects_empty_or_invalid_body _ "doc" empty_store _ Hkey Hr)
      as (_ & Hinvalid & _).
    apply (Hinvalid "Sorry." "Expecting value"); [reflexivity | discriminate | reflexivity].
Defined.

(** C6 as worded fails on a body that is not JSON and that [json.loads]
    does not reject with a [JSONDecodeError].  The body of 2000 opening
    brackets is not empty and is not JSON (no array is closed); [json.loads]
    raises a [RecursionError] on it, which [except json.JSONDecodeError]
    does not catch, so the generator raises the [RecursionError] and not
    "Gemini did not return valid JSON.". *)
Lemma generate_deep_body_counterexample :
  deep_body <> ""
  /\ json_loads (service_world (Some "k") (only_model primary_model)
                   (Some deep_body) (Raise recursion_error)) deep_body
     = Raise recursion_error
  /\ outcome (generate_study_material
                (service_world (Some "k") (only_model primary_model)
                   (Some deep_body) (Raise recursion_error))
                "doc") empty_store
     = Raise recursion_error
  /\ forall cause,
       outcome (generate_study_material
                  (service_world (Some "k") (only_model primary_model)
                     (Some deep_body) (Raise recursion_error))
                  "doc") empty_store
       <> Raise (ValueError invalid_json_message cause).
Proof.
  assert (Hout : outcome (generate_study_material
                            (service_world (Some "k") (only_model primary_model)
                               (Some deep_body) (Raise recursion_error))
                            "doc") empty_store
                 = Raise recursion_error) by (vm_compute; reflexivity).
  split; [vm_compute; discriminate|]. split; [vm_compute; reflexivity|].
  split; [exact Hout|].
  intros cause. rewrite Hout. discriminate.
Qed.

(** ** generate_study_material: the normalization *)

Lemma normalize_field_dict key isT default d s :
  normalize_field key isT default (PyDict d) s
    = (Ok (PyDict (set_default key isT default d)), s).
Proof.
  unfold normalize_field, set_default, bind, lift, ret. cbn.
  destruct (d !! key) as [v|]; cbn; [|reflexivity].
  destruct (isT v); reflexivity.
Qed.

Lemma normalize_dict d s :
  normalize (PyDict d) s
    = (Ok (PyDict (set_default "quiz" is_list (PyList [])
                     (set_default "flashcards" is_list (PyList [])
                        (set_default "summary" is_str (PyStr "") d)))), s).
Proof.
  unfold normalize. unfold bind. rewrite !normalize_field_dict. reflexivity.
Qed.

Lemma set_default_lookup key isT default (d : gmap string pyval) :
  set_default key isT default d !! key = Some (field_or isT default (d !! key)).
Proof.
  unfold set_default, field_or. destruct (d !! key) as [v|] eqn:Hv.
  - destruct (isT v); [exact Hv | apply lookup_insert_eq].
  - apply lookup_insert_eq.
Qed.

Lemma set_default_lookup_ne key isT default (d : gmap string pyval) k :
  k <> key -> set_default key isT default d !! k = d !! k.
Proof.
  intros Hk. unfold set_default. destruct (d !! key) as [v|].
  - destruct (isT v); [reflexivity|]. apply lookup_insert_ne. congruence.
  - apply lookup_insert_ne. congruence.
Qed.

Lemma normalize_not_dict v s :
  is_dict v = false ->
  normalize v s = (Raise (TypeError (failing_operation v) (type_of v)), s).
Proof.
  intros Hv. destruct v as [| | | |t|l|d]; try discriminate;
    unfold normalize, normalize_field, bind, lift, ret; cbn; try reflexivity.
  - destruct (str_contains "summary" t); reflexivity.
  - destruct (existsb (equals_str "summary") l); reflexivity.
Qed.

Lemma generate_decoded w source s r raw data :
  key_present w -> chosen_response w source = Some r ->
  body r = Some raw -> raw <> "" -> json_loads w raw = Ok data ->
  outcome (generate_study_material w source) s = outcome (normalize data) empty_store.
Proof.
  intros Hkey Hr Hbody Hraw Hloads.
  rewrite (generate_reads_chosen w source s r Hkey Hr).
  rewrite (read_response_body w r raw Hbody), (str_truthy_true raw Hraw), Hloads.
  reflexivity.
Qed.

(** C3, as amended.  With the credential configured, a model call that
    returned and a body that decodes to a JSON object, the generator returns
    a dictionary
    in which ["summary"] is the given value when that is a string and the
    empty string otherwise, ["flashcards"] and ["quiz"] are the given values
    when those are lists, whatever the lists hold, and the empty list
    otherwise, and every other key is as decoded.  In particular, when
    ["flashcards"] is missing, it becomes the empty list while a string
    summary and a list quiz stay as decoded. *)
Theorem generate_normalizes_payload w source s r raw d :
  key_present w ->
  chosen_response w source = Some r ->
  body r = Some raw -> raw <> "" ->
  json_loads w raw = Ok (PyDict d) ->
  exists d',
    outcome (generate_study_material w source) s = Ok (PyDict d')
    /\ d' !! "summary" = Some (field_or is_str (PyStr "") (d !! "summary"))
    /\ d' !! "flashcards" = Some (field_or is_list (PyList []) (d !! "flashcards"))
    /\ d' !! "quiz" = Some (field_or is_list (PyList []) (d !! "quiz"))
    /\ (forall k, k <> "summary" -> k <> "flashcards" -> k <> "quiz" ->
                  d' !! k = d !! k)
    /\ (forall x q,
           d !! "flashcards" = None ->
           d !! "summary" = Some (PyStr x) -> d !! "quiz" = Some (PyList q) ->
           d' !! "flashcards" = Some (PyList [])
           /\ d' !! "summary" = Some (PyStr x)
           /\ d' !! "quiz" = Some (PyList q)).
Proof.
  intros Hkey Hr Hbody Hraw Hloads.
  rewrite (generate_decoded w source s r raw _ Hkey Hr Hbody Hraw Hloads).
  unfold outcome. rewrite normalize_dict. cbn [fst].
  eexists. split; [reflexivity|].
  assert (Hs : forall k, k <> "flashcards" -> k <> "quiz" ->
            set_default "quiz" is_list (PyList [])
              (set_default "flashcards" is_list (PyList [])
                 (set_default "summary" is_str (PyStr "") d)) !! k
            = set_default "summary" is_str (PyStr "") d !! k).
  { intros k H1 H2. rewrite !set_default_lookup_ne by assumption. reflexivity. }
  assert (Hsummary :
            set_default "quiz" is_list (PyList [])
              (set_default "flashcards" is_list (PyList [])
                 (set_default "summary" is_str (PyStr "") d)) !! "summary"
            = Some (field_or is_str (PyStr "") (d !! "summary"))).
  { rewrite Hs by discriminate. apply set_default_lookup. }
  assert (Hflash :
            set_default "quiz" is_list (PyList [])
              (set_default "flashcards" is_list (PyList [])
                 (set_default "summary" is_str (PyStr "") d)) !! "flashcards"
            = Some (field_or is_list (PyList []) (d !! "flashcards"))).
  { rewrite set_default_lookup_ne by discriminate.
    rewrite set_default_lookup, set_default_lookup_ne by discriminate. reflexivity. }
  assert (Hquiz :
            set_default "quiz" is_list (PyList [])
              (set_default "flashcards" is_list (PyList [])
                 (set_default "summary" is_str (PyStr "") d)) !! "quiz"
            = Some (field_or is_list (PyList []) (d !! "quiz"))).
  { rewrite set_default_lookup, !set_default_lookup_ne by discriminate. reflexivity. }
  repeat split; try assumption.
  - intros k H1 H2 H3. rewrite Hs by assumption. apply set_default_lookup_ne, H1.
  - rewrite Hflash. match goal with H : d !! "flashcards" = None |- _ => rewrite H end.
    reflexivity.
  - rewrite Hsummary. match goal with H : d !! "summary" = _ |- _ => rewrite H end.
    reflexivity.
  - rewrite Hquiz. match goal with H : d !! "quiz" = _ |- _ => rewrite H end.
    reflexivity.
Qed.

Lemma generate_normalizes_payload_witness :
  exists d',
    outcome (generate_study_material
               (service_world (Some "k") (only_model primary_model)
                  (Some object_body) (Ok (PyDict object_payload)))
               "doc") empty_store = Ok (PyDict d')
    /\ d' !! "summary"
       = Some (field_or is_str (PyStr "") (object_payload !! "summary"))
    /\ d' !! "flashcards"
       = Some (field_or is_list (PyList []) (object_payload !! "flashcards"))
    /\ d' !! "quiz" = Some (field_or is_list (PyList []) (object_payload !! "quiz"))
    /\ (forall k, k <> "summary" -> k <> "flashcards" -> k <> "quiz" ->
                  d' !! k = object_payload !! k)
    /\ (forall x q,
           object_payload !! "flashcards" = None ->
           object_payload !! "summary" = Some (PyStr x) ->
           object_payload !! "quiz" = Some (PyList q) ->
           d' !! "flashcards" = Some (PyList [])
           /\ d' !! "summary" = Some (PyStr x)
           /\ d' !! "quiz" = Some (PyList q)).
Proof.
  assert (Hkey : key_present
                   (service_world (Some "k") (only_model primary_model)
                      (Some object_body) (Ok (PyDict object_payload)))).
  { exists "k". split; [reflexivity | discriminate]. }
  assert (Hr : chosen_response
                 (service_world (Some "k") (only_model primary_model)
                    (Some object_body) (Ok (PyDict object_payload))) "doc"
               = Some (mkResponse (Ok (Some object_body)))) by reflexivity.
  assert (Hbody : body (mkResponse (Ok (Some object_body))) = Some object_body)
    by reflexivity.
  assert (Hraw : object_body <> "") by (vm_compute; discriminate).
  assert (Hloads : json_loads
                     (service_world (Some "k") (only_model primary_model)
                        (Some object_body) (Ok (PyDict object_payload))) object_body
                   = Ok (PyDict object_payload)) by (vm_compute; reflexivity).
  exact (generate_normalizes_payload _ "doc" empty_store _ _ _ Hkey Hr Hbody Hraw Hloads).
Defined.

(** C3 as worded speaks of every payload that is decoded.  The body [[]]
    is decoded, to the empty list, and the generator does not return: the
    first normalization step finds no ["summary"] in the list and the item
    assignment raises. *)
Lemma generate_array_payload_counterexample :
  json_loads (service_world (Some "k") (only_model primary_model)
                (Some "[]") (Ok (PyList []))) "[]"
    = Ok (PyList [])
  /\ outcome (generate_study_material
                (service_world (Some "k") (only_model primary_model)
                   (Some "[]") (Ok (PyList [])))
                "doc") empty_store
     = Raise (TypeError OpSetItem TList)
  /\ forall out,
       outcome (generate_study_material
                  (service_world (Some "k") (only_model primary_model)
                     (Some "[]") (Ok (PyList [])))
                  "doc") empty_store
       <> Ok out.
Proof.
  assert (Hout : outcome (generate_study_material
                            (service_world (Some "k") (only_model primary_model)
                               (Some "[]") (Ok (PyList [])))
                            "doc") empty_store
                 = Raise (TypeError OpSetItem TList)) by (vm_compute; reflexivity).
  split; [reflexivity|]. split; [exact Hout|].
  intros out. rewrite Hout. discriminate.
Qed.

(** ** dashboard *)

Lemma extract_logs w f : logs_only (extract_text_from_pdf w f) [CallExtract].
Proof.
  intros s. unfold outcome. destruct (pdfplumber_open w f) as [pages|e] eqn:Hopen.
  - rewrite !(extract_opened w f pages _ Hopen). reflexivity.
  - rewrite !(extract_unreadable w f e _ Hopen). reflexivity.
Qed.

Lemma key_cases w :
  key_present w
  \/ (getenv w "GEMINI_API_KEY" = None \/ getenv w "GEMINI_API_KEY" = Some "").
Proof.
  unfold key_present. destruct (getenv w "GEMINI_API_KEY") as [k|]; [|tauto].
  destruct k as [|c k]; [tauto|]. left. eexists. split; [reflexivity | discriminate].
Qed.

Lemma generate_uniform w source : uniform (generate_study_material w source).
Proof.
  destruct (key_cases w) as [Hkey|Hno].
  - eexists. intros s. unfold outcome.
    rewrite !(generate_with_key w source _ Hkey). reflexivity.
  - exists [CallGenerate]. intros s. unfold outcome.
    rewrite !(generate_without_key w source _ Hno). reflexivity.
Qed.

Lemma normalize_returns_dict data s out :
  outcome (normalize data) s = Ok out -> is_dict out = true.
Proof.
  unfold outcome. destruct (is_dict data) eqn:Hd.
  - destruct data; try discriminate. rewrite normalize_dict.
    intros [= <-]. reflexivity.
  - rewrite (normalize_not_dict data s Hd). discriminate.
Qed.

Lemma read_response_returns_dict w r s out :
  outcome (read_response w r) s = Ok out -> is_dict out = true.
Proof.
  unfold outcome, read_response. unfold bind at 1.
  destruct (getattr_text r s) as [[v|e] s1]; [|discriminate].
  destruct (negb (str_truthy (or_empty v))); [discriminate|].
  unfold bind.
  destruct (try_except_class _ _ _ s1) as [[data|e] s2]; [|discriminate].
  apply normalize_returns_dict.
Qed.

(** The generator returns nothing but dictionaries. *)
Lemma generate_returns_dict w source s out :
  outcome (generate_study_material w source) s = Ok out -> is_dict out = true.
Proof.
  unfold outcome. destruct (key_cases w) as [Hkey|Hno].
  - rewrite (generate_with_key w source s Hkey). cbn [fst].
    destruct (chosen _) as [r|]; [|discriminate].
    apply read_response_returns_dict.
  - rewrite (generate_without_key w source s Hno). discriminate.
Qed.

Lemma dashboard_post_pdf w req f s :
  method req = POST ->
  FILES req !! "pdf_file" = Some f ->
  name f <> "" ->
  endswith (lower (name f)) ".pdf" = true ->
  outcome (dashboard w req) s =
    Ok match outcome (extract_text_from_pdf w f) empty_store with
       | Raise e => set_error (error_text e) initial_context
       | Ok source =>
           match outcome (generate_study_material w source) empty_store with
           | Raise e => set_error (error_text e) initial_context
           | Ok (PyDict d) =>
               mkContext (default PyNone (d !! "summary"))
                         (default (PyList []) (d !! "flashcards"))
                         (default (PyList []) (d !! "quiz")) None
           | Ok v => set_error (error_text (AttributeError (type_of v) "get"))
                       initial_context
           end
       end.
Proof.
  intros Hm Hf Hname Hpdf.
  unfold outcome at 1. unfold dashboard. rewrite Hm, Hf. cbn [file_truthy].
  rewrite (str_truthy_true _ Hname), Hpdf. cbn [negb].
  unfold bind at 1 2. unfold update_context at 1. unfold try_except.
  unfold bind at 1. rewrite (extract_logs w f _).
  destruct (outcome (extract_text_from_pdf w f) empty_store) as [source|e];
    [|reflexivity].
  destruct (generate_uniform w source) as [evs Hgen].
  unfold bind at 1. rewrite (Hgen _).
  destruct (outcome (generate_study_material w source) empty_store) as [v|e];
    [|reflexivity].
  destruct v; reflexivity.
Qed.

Lemma dashboard_rejects w req s :
  method req = POST ->
  (file_truthy (FILES req !! "pdf_file") = false ->
   dashboard w req s
     = (Ok (set_error no_file_message initial_context),
        mkStore (set_error no_file_message initial_context) (calls s)))
  /\ (forall f,
         FILES req !! "pdf_file" = Some f -> name f <> "" ->
         endswith (lower (name f)) ".pdf" = false ->
         dashboard w req s
           = (Ok (set_error not_pdf_message initial_context),
              mkStore (set_error not_pdf_message initial_context) (calls s))).
Proof.
  intros Hm. unfold dashboard. rewrite Hm. split.
  - intros ->. reflexivity.
  - intros f -> Hname Hpdf. cbn [file_truthy].
    rewrite (str_truthy_true _ Hname), Hpdf. reflexivity.
Qed.

(** C2.  For a POST request with a file whose name ends in ".pdf": when the
    extractor raises, or the extractor returns and the generator raises, the
    handler does not raise; the context it renders has [error] set to the
    message of the exception, or to "Something went wrong while processing
    the PDF." when that message is empty, and [summary], [flashcards] and
    [quiz] as they were initialised.  When both return, [error] stays [None]
    and the three fields are those of the dictionary the generator
    returned. *)
Theorem dashboard_reports_errors w req f s :
  method req = POST ->
  FILES req !! "pdf_file" = Some f ->
  name f <> "" ->
  endswith (lower (name f)) ".pdf" = true ->
  (forall s1 e,
      outcome (extract_text_from_pdf w f) s1 = Raise e ->
      outcome (dashboard w req) s
        = Ok (mkContext PyNone (PyList []) (PyList [])
                (Some (if str_truthy (str_exc e) then str_exc e else fallback_message))))
  /\ (forall s1 s2 source e,
      outcome (extract_text_from_pdf w f) s1 = Ok source ->
      outcome (generate_study_material w source) s2 = Raise e ->
      outcome (dashboard w req) s
        = Ok (mkContext PyNone (PyList []) (PyList [])
                (Some (if str_truthy (str_exc e) then str_exc e else fallback_message))))
  /\ (forall s1 s2 source data,
      outcome (extract_text_from_pdf w f) s1 = Ok source ->
      outcome (generate_study_material w source) s2 = Ok data ->
      exists d,
        data = PyDict d
        /\ outcome (dashboard w req) s
           = Ok (mkContext (default PyNone (d !! "summary"))
                           (default (PyList []) (d !! "flashcards"))
                           (default (PyList []) (d !! "quiz")) None)).
Proof.
  intros Hm Hf Hname Hpdf.
  rewrite (dashboard_post_pdf w req f s Hm Hf Hname Hpdf).
  split; [|split].
  - intros s1 e He.
    rewrite (logs_only_outcome _ _ s1 (extract_logs w f)) in He. rewrite He.
    reflexivity.
  - intros s1 s2 source e Hsrc He.
    rewrite (logs_only_outcome _ _ s1 (extract_logs w f)) in Hsrc. rewrite Hsrc.
    rewrite (uniform_outcome _ s2 (generate_uniform w source)) in He. rewrite He.
    reflexivity.
  - intros s1 s2 source data Hsrc Hdata.
    pose proof (generate_returns_dict w source s2 data Hdata) as Hdict.
    rewrite (logs_only_outcome _ _ s1 (extract_logs w f)) in Hsrc. rewrite Hsrc.
    rewrite (uniform_outcome _ s2 (generate_uniform w source)) in Hdata. rewrite Hdata.
    destruct data as [| | | | | |d]; try discriminate.
    exists d. split; reflexivity.
Qed.

Lemma dashboard_reports_errors_witness :
  outcome (dashboard (world_of_pages []) (post_of sample_pdf)) empty_store
  = Ok (mkContext PyNone (PyList []) (PyList []) (Some empty_content_message)).
Proof.
  assert (Hname : name sample_pdf <> "") by discriminate.
  assert (Hpdf : endswith (lower (name sample_pdf)) ".pdf" = true) by reflexivity.
  assert (Hf : FILES (post_of sample_pdf) !! "pdf_file" = Some sample_pdf)
    by (vm_compute; reflexivity).
  destruct (dashboard_reports_errors (world_of_pages []) (post_of sample_pdf)
              sample_pdf empty_store eq_refl Hf Hname Hpdf) as (Hextract & _).
  apply (Hextract empty_store (ValueError empty_content_message None)).
  reflexivity.
Defined.

(** C7.  For a POST request: without a file the handler renders the context
    with [error] "Please upload a PDF file."; with a file whose name does not
    end in ".pdf", letter case aside, it renders the context with [error]
    "Only PDF files are supported.".  In both cases the other fields are as
    initialised and nothing was called: neither the extractor nor the
    generator ran.  (A file in [request.FILES] has a name that is not
    empty.) *)
Theorem dashboard_validates_upload w req s :
  method req = POST ->
  (FILES req !! "pdf_file" = None ->
   outcome (dashboard w req) s
     = Ok (mkContext PyNone (PyList []) (PyList []) (Some no_file_message))
   /\ calls_after (dashboard w req) s = calls s)
  /\ (forall f,
         FILES req !! "pdf_file" = Some f -> name f <> "" ->
         endswith (lower (name f)) ".pdf" = false ->
         outcome (dashboard w req) s
           = Ok (mkContext PyNone (PyList []) (PyList []) (Some not_pdf_message))
         /\ calls_after (dashboard w req) s = calls s).
Proof.
  intros Hm. destruct (dashboard_rejects w req s Hm) as [Hnone Hname].
  unfold outcome, calls_after. split.
  - intros Hf. rewrite Hnone by (rewrite Hf; reflexivity). split; reflexivity.
  - intros f Hf Hn Hpdf. rewrite (Hname f Hf Hn Hpdf). split; reflexivity.
Qed.

Lemma dashboard_validates_upload_witness :
  (outcome (dashboard (world_of_pages []) post_without_file) empty_store
   = Ok (mkContext PyNone (PyList []) (PyList []) (Some no_file_message))
   /\ calls_after (dashboard (world_of_pages []) post_without_file) empty_store = [])
  /\ (outcome (dashboard (world_of_pages [])
                 (post_of (mkUploadedFile "notes.txt" []))) empty_store
      = Ok (mkContext PyNone (PyList []) (PyList []) (Some not_pdf_message))
      /\ calls_after (dashboard (world_of_pages [])
                        (post_of (mkUploadedFile "notes.txt" []))) empty_store = []).
Proof.
  split.
  - apply (proj1 (dashboard_validates_upload (world_of_pages []) post_without_file
                    empty_store eq_refl)).
    reflexivity.
  - assert (Hf : FILES (post_of (mkUploadedFile "notes.txt" [])) !! "pdf_file"
                 = Some (mkUploadedFile "notes.txt" [])) by (vm_compute; reflexivity).
    apply (proj2 (dashboard_validates_upload (world_of_pages [])
                    (post_of (mkUploadedFile "notes.txt" [])) empty_store eq_refl)
             (mkUploadedFile "notes.txt" []) Hf); [discriminate | reflexivity].
Defined.

Lemma str_exc_TypeError op t : str_truthy (str_exc (TypeError op t)) = true.
Proof. destruct op, t; reflexivity. Qed.

(** C9, as amended.  With the credential configured, a model call that
    returned and a body that [json.loads] decodes to a value that is not a
    dictionary,
    the generator raises a [TypeError], not the [ValueError] for invalid
    JSON: from the membership test for [null], a boolean or a number; for a
    string or an array, from the item lookup when ["summary"] is in it and
    from the item assignment otherwise.  The generator does not catch it;
    the handler does, and renders its message as [error] with the other
    fields as initialised. *)
Theorem generate_rejects_non_object w source s r raw v :
  key_present w ->
  chosen_response w source = Some r ->
  body r = Some raw -> raw <> "" ->
  json_loads w raw = Ok v ->
  is_dict v = false ->
  outcome (generate_study_material w source) s
    = Raise (TypeError (failing_operation v) (type_of v))
  /\ (forall cause,
         outcome (generate_study_material w source) s
         <> Raise (ValueError invalid_json_message cause))
  /\ (forall req f s1 s2,
         method req = POST -> FILES req !! "pdf_file" = Some f ->
         name f <> "" -> endswith (lower (name f)) ".pdf" = true ->
         outcome (extract_text_from_pdf w f) s1 = Ok source ->
         outcome (dashboard w req) s2
           = Ok (mkContext PyNone (PyList []) (PyList [])
                   (Some (str_exc (TypeError (failing_operation v) (type_of v)))))).
Proof.
  intros Hkey Hr Hbody Hraw Hloads Hv.
  assert (Hout : forall s',
             outcome (generate_study_material w source) s'
             = Raise (TypeError (failing_operation v) (type_of v))).
  { intros s'. rewrite (generate_decoded w source s' r raw v Hkey Hr Hbody Hraw Hloads).
    unfold outcome. rewrite (normalize_not_dict v _ Hv). reflexivity. }
  split; [apply Hout|]. split.
  - intros cause. rewrite Hout. discriminate.
  - intros req f s1 s2 Hm Hf Hname Hpdf Hsrc.
    rewrite (dashboard_post_pdf w req f s2 Hm Hf Hname Hpdf).
    rewrite (logs_only_outcome _ _ s1 (extract_logs w f)) in Hsrc.
    rewrite Hsrc, (Hout empty_store). unfold error_text.
    rewrite str_exc_TypeError. reflexivity.
Qed.

Lemma generate_rejects_non_object_witness :
  outcome (generate_study_material
             (service_world (Some "k") (only_model primary_model)
                (Some "[]") (Ok (PyList [])))
             "Photosynthesis turns light into sugar.") empty_store
  = Raise (TypeError OpSetItem TList)
  /\ outcome (dashboard
                (service_world (Some "k") (only_model primary_model)
                   (Some "[]") (Ok (PyList [])))
                (post_of sample_pdf)) empty_store
     = Ok (mkContext PyNone (PyList []) (PyList [])
             (Some "list indices must be integers or slices, not str")).
Proof.
  assert (Hkey : key_present
                   (service_world (Some "k") (only_model primary_model)
                      (Some "[]") (Ok (PyList [])))).
  { exists "k". split; [reflexivity | discriminate]. }
  assert (Hr : chosen_response
                 (service_world (Some "k") (only_model primary_model)
                    (Some "[]") (Ok (PyList [])))
                 "Photosynthesis turns light into sugar."
               = Some (mkResponse (Ok (Some "[]")))) by reflexivity.
  assert (Hraw : "[]" <> "") by discriminate.
  assert (Hf : FILES (post_of sample_pdf) !! "pdf_file" = Some sample_pdf)
    by (vm_compute; reflexivity).
  assert (Hname : name sample_pdf <> "") by discriminate.
  destruct (generate_rejects_non_object _ _ empty_store _ "[]" (PyList [])
              Hkey Hr eq_refl Hraw eq_refl eq_refl) as (Hout & _ & Hview).
  split; [exact Hout|].
  apply (Hview (post_of sample_pdf) sample_pdf empty_store empty_store
           eq_refl Hf Hname eq_refl).
  reflexivity.
Defined.

(** C9 as worded fails in two ways.  It names the membership test and the
    item assignment only: for the body [["summary"]] the membership test
    returns and the item lookup [data["summary"]] is what raises.  And it
    speaks of every body that is JSON but not an object: the body of 5000
    digits 1 is a JSON number, yet [json.loads] raises a [ValueError] on it
    (the limit on the digits of an integer), so the normalization is not
    reached and no [TypeError] is raised. *)
Lemma generate_non_object_counterexample :
  (json_loads (service_world (Some "k") (only_model primary_model)
                 (Some array_body) (Ok array_payload)) array_body
     = Ok array_payload
   /\ is_dict array_payload = false
   /\ py_contains "summary" array_payload = Ok true
   /\ outcome (generate_study_material
                 (service_world (Some "k") (only_model primary_model)
                    (Some array_body) (Ok array_payload))
                 "doc") empty_store
      = Raise (TypeError OpGetItem TList)
   /\ ~ (exists t,
           outcome (generate_study_material
                      (service_world (Some "k") (only_model primary_model)
                         (Some array_body) (Ok array_payload))
                      "doc") empty_store = Raise (TypeError OpContains t)
           \/ outcome (generate_study_material
                         (service_world (Some "k") (only_model primary_model)
                            (Some array_body) (Ok array_payload))
                         "doc") empty_store = Raise (TypeError OpSetItem t)))
  /\ (json_loads (service_world (Some "k") (only_model primary_model)
                    (Some long_number_body) (Raise digits_limit_error))
        long_number_body
      = Raise digits_limit_error
      /\ outcome (generate_study_material
                    (service_world (Some "k") (only_model primary_model)
                       (Some long_number_body) (Raise digits_limit_error))
                    "doc") empty_store
         = Raise digits_limit_error
      /\ forall op t,
           outcome (generate_study_material
                      (service_world (Some "k") (only_model primary_model)
                         (Some long_number_body) (Raise digits_limit_error))
                      "doc") empty_store
           <> Raise (TypeError op t)).
Proof.
  split.
  - assert (Hout : outcome (generate_study_material
                              (service_world (Some "k") (only_model primary_model)
                                 (Some array_body) (Ok array_payload))
                              "doc") empty_store
                   = Raise (TypeError OpGetItem TList)) by (vm_compute; reflexivity).
    split; [vm_compute; reflexivity|]. split; [reflexivity|].
    split; [reflexivity|]. split; [exact Hout|].
    rewrite Hout. intros [t [H|H]]; discriminate.
  - assert (Hout : outcome (generate_study_material
                              (service_world (Some "k") (only_model primary_model)
                                 (Some long_number_body) (Raise digits_limit_error))
                              "doc") empty_store
                   = Raise digits_limit_error) by (vm_compute; reflexivity).
    split; [vm_compute; reflexivity|]. split; [exact Hout|].
    intros op t. rewrite Hout. discriminate.
Qed.

(** * Further properties of the code *)

(** ** The normalization *)

Lemma normalized_lookup_summary d :
  normalized d !! "summary" = Some (field_or is_str (PyStr "") (d !! "summary")).
Proof.
  unfold normalized. rewrite !set_default_lookup_ne by discriminate.
  apply set_default_lookup.
Qed.

Lemma normalized_lookup_flashcards d :
  normalized d !! "flashcards"
    = Some (field_or is_list (PyList []) (d !! "flashcards")).
Proof.
  unfold normalized. rewrite set_default_lookup_ne by discriminate.
  rewrite set_default_lookup, set_default_lookup_ne by discriminate. reflexivity.
Qed.

Lemma normalized_lookup_quiz d :
  normalized d !! "quiz" = Some (field_or is_list (PyList []) (d !! "quiz")).
Proof.
  unfold normalized. rewrite set_default_lookup, !set_default_lookup_ne by discriminate.
  reflexivity.
Qed.

Lemma field_or_str o : exists x, field_or is_str (PyStr "") o = PyStr x.
Proof.
  destruct o as [v|]; cbn; [|eexists; reflexivity].
  destruct v; cbn; eexists; reflexivity.
Qed.

Lemma field_or_list o : exists l, field_or is_list (PyList []) o = PyList l.
Proof.
  destruct o as [v|]; cbn; [|eexists; reflexivity].
  destruct v; cbn; eexists; reflexivity.
Qed.

Lemma normalized_conforming d : conforming (normalized d).
Proof.
  unfold conforming.
  rewrite normalized_lookup_summary, normalized_lookup_flashcards,
    normalized_lookup_quiz.
  destruct (field_or_str (d !! "summary")) as [x ->].
  destruct (field_or_list (d !! "flashcards")) as [l ->].
  destruct (field_or_list (d !! "quiz")) as [q ->].
  repeat split; eexists; reflexivity.
Qed.

Lemma set_default_kept key isT default (d : gmap string pyval) v :
  d !! key = Some v -> isT v = true -> set_default key isT default d = d.
Proof. intros Hv Hok. unfold set_default. rewrite Hv, Hok. reflexivity. Qed.

Lemma normalized_fixed d : conforming d -> normalized d = d.
Proof.
  intros ([x Hs] & [l Hf] & [q Hq]). unfold normalized.
  rewrite (set_default_kept "summary" is_str _ d _ Hs eq_refl).
  rewrite (set_default_kept "flashcards" is_list _ d _ Hf eq_refl).
  apply (set_default_kept "quiz" is_list _ d _ Hq eq_refl).
Qed.

Lemma normalize_ok_inv data s out :
  outcome (normalize data) s = Ok out ->
  exists d, data = PyDict d /\ out = PyDict (normalized d).
Proof.
  unfold outcome. destruct (is_dict data) eqn:Hd.
  - destruct data as [| | | | | |d]; try discriminate. rewrite normalize_dict.
    intros [= <-]. exists d. split; reflexivity.
  - rewrite (normalize_not_dict data s Hd). discriminate.
Qed.

Lemma read_response_ok_inv w r s out :
  outcome (read_response w r) s = Ok out ->
  exists raw d,
    raw <> "" /\ json_loads w raw = Ok (PyDict d) /\ out = PyDict (normalized d).
Proof.
  unfold outcome, read_response. unfold bind at 1.
  destruct (getattr_text r s) as [[v|e] s1]; [|discriminate].
  destruct (str_truthy (or_empty v)) eqn:Hraw; [|discriminate]. cbn [negb].
  unfold bind, try_except_class, try_except, lift.
  destruct (json_loads w (or_empty v)) as [data|e] eqn:Hloads.
  - intros Hout. destruct (normalize_ok_inv data s1 out Hout) as (d & -> & ->).
    exists (or_empty v), d. split; [|split; [exact Hloads | reflexivity]].
    intros Hempty. rewrite Hempty in Hraw. discriminate.
  - destruct (is_JSONDecodeError e); discriminate.
Qed.

Lemma generate_ok_inv w source s out :
  outcome (generate_study_material w source) s = Ok out ->
  key_present w
  /\ exists r raw d,
       chosen_response w source = Some r
       /\ raw <> "" /\ json_loads w raw = Ok (PyDict d)
       /\ out = PyDict (normalized d).
Proof.
  unfold outcome. destruct (key_cases w) as [Hkey|Hno].
  - rewrite (generate_with_key w source s Hkey). cbn [fst].
    unfold chosen_response. destruct (chosen _) as [r|]; [|discriminate].
    intros Hout. split; [exact Hkey|].
    destruct (read_response_ok_inv w r empty_store out Hout) as (raw & d & H).
    exists r, raw, d. split; [reflexivity | exact H].
  - rewrite (generate_without_key w source s Hno). discriminate.
Qed.

(** X1.  Whatever the generator returns is a dictionary that holds a string
    under ["summary"] and lists under ["flashcards"] and ["quiz"]: the shape
    its docstring promises, so reading these keys cannot fail. *)
Theorem generate_result_conforms w source s out :
  outcome (generate_study_material w source) s = Ok out ->
  exists d, out = PyDict d /\ conforming d.
Proof.
  intros Hout.
  destruct (generate_ok_inv w source s out Hout) as (_ & r & raw & d & _ & _ & _ & ->).
  exists (normalized d). split; [reflexivity | apply normalized_conforming].
Qed.

(** X2.  A decoded payload that already has a string summary and lists of
    flashcards and quiz items is returned as decoded, extra keys included:
    the normalization changes nothing in it. *)
Theorem generate_keeps_conforming_payload w source s r raw d :
  key_present w ->
  chosen_response w source = Some r ->
  body r = Some raw -> raw <> "" ->
  json_loads w raw = Ok (PyDict d) ->
  conforming d ->
  outcome (generate_study_material w source) s = Ok (PyDict d).
Proof.
  intros Hkey Hr Hbody Hraw Hloads Hd.
  rewrite (generate_decoded w source s r raw _ Hkey Hr Hbody Hraw Hloads).
  unfold outcome. rewrite normalize_dict. cbn [fst].
  change (Ok (PyDict (normalized d)) = Ok (PyDict d)).
  rewrite (normalized_fixed d Hd). reflexivity.
Qed.

(** X3.  The normalization is idempotent: run on what it returned, it
    returns the same dictionary. *)
Theorem normalize_idempotent data s out :
  outcome (normalize data) s = Ok out ->
  outcome (normalize out) s = Ok out.
Proof.
  intros Hout. destruct (normalize_ok_inv data s out Hout) as (d & _ & ->).
  unfold outcome. rewrite normalize_dict. cbn [fst].
  change (Ok (PyDict (normalized (normalized d))) = Ok (PyDict (normalized d))).
  rewrite (normalized_fixed _ (normalized_conforming d)). reflexivity.
Qed.

Lemma generate_result_conforms_witness :
  exists d,
    PyDict (normalized object_payload) = PyDict d /\ conforming d.
Proof.
  apply (generate_result_conforms
           (service_world (Some "k") (only_model primary_model)
              (Some object_body) (Ok (PyDict object_payload)))
           "doc" empty_store).
  vm_compute. reflexivity.
Defined.

Lemma generate_keeps_conforming_payload_witness :
  outcome (generate_study_material
             (service_world (Some "k") (only_model fallback_model)
                (Some object_body) (Ok (PyDict conforming_payload)))
             "doc") empty_store
  = Ok (PyDict conforming_payload).
Proof.
  assert (Hkey : key_present
                   (service_world (Some "k") (only_model fallback_model)
                      (Some object_body) (Ok (PyDict conforming_payload)))).
  { exists "k". split; [reflexivity | discriminate]. }
  assert (Hr : chosen_response
                 (service_world (Some "k") (only_model fallback_model)
                    (Some object_body) (Ok (PyDict conforming_payload))) "doc"
               = Some (mkResponse (Ok (Some object_body)))) by reflexivity.
  assert (Hbody : body (mkResponse (Ok (Some object_body))) = Some object_body)
    by reflexivity.
  assert (Hraw : object_body <> "") by (vm_compute; discriminate).
  assert (Hloads : json_loads
                     (service_world (Some "k") (only_model fallback_model)
                        (Some object_body) (Ok (PyDict conforming_payload)))
                     object_body
                   = Ok (PyDict conforming_payload)) by (vm_compute; reflexivity).
  assert (Hconf : conforming conforming_payload).
  { repeat split; eexists; vm_compute; reflexivity. }
  exact (generate_keeps_conforming_payload _ "doc" empty_store _ _ _
           Hkey Hr Hbody Hraw Hloads Hconf).
Defined.

Lemma normalize_idempotent_witness :
  outcome (normalize (PyDict (normalized object_payload))) empty_store
  = Ok (PyDict (normalized object_payload)).
Proof.
  apply (normalize_idempotent (PyDict object_payload) empty_store).
  unfold outcome. rewrite normalize_dict. reflexivity.
Defined.

(** ** Errors the generator does not wrap *)

(** X4.  Only [json.JSONDecodeError] is turned into "Gemini did not return
    valid JSON.": any other exception [json.loads] raises on the body leaves
    the generator as it is. *)
Theorem generate_passes_other_decoder_errors w source s r raw e :
  key_present w ->
  chosen_response w source = Some r ->
  body r = Some raw -> raw <> "" ->
  json_loads w raw = Raise e ->
  is_JSONDecodeError e = false ->
  outcome (generate_study_material w source) s = Raise e.
Proof.
  intros Hkey Hr Hbody Hraw Hloads He.
  rewrite (generate_reads_chosen w source s r Hkey Hr).
  rewrite (read_response_body w r raw Hbody), (str_truthy_true raw Hraw), Hloads, He.
  reflexivity.
Qed.

Lemma generate_passes_other_decoder_errors_witness :
  outcome (generate_study_material
             (service_world (Some "k") (only_model primary_model) (Some "[[[[")
                (Raise (LibraryError "RecursionError"
                          "maximum recursion depth exceeded")))
             "doc") empty_store
  = Raise (LibraryError "RecursionError" "maximum recursion depth exceeded").
Proof.
  assert (Hkey : key_present
                   (service_world (Some "k") (only_model primary_model) (Some "[[[[")
                      (Raise (LibraryError "RecursionError"
                                "maximum recursion depth exceeded")))).
  { exists "k". split; [reflexivity | discriminate]. }
  assert (Hr : chosen_response
                 (service_world (Some "k") (only_model primary_model) (Some "[[[[")
                    (Raise (LibraryError "RecursionError"
                              "maximum recursion depth exceeded"))) "doc"
               = Some (mkResponse (Ok (Some "[[[[")))) by reflexivity.
  assert (Hraw : "[[[[" <> "") by discriminate.
  exact (generate_passes_other_decoder_errors _ "doc" empty_store _ "[[[[" _
           Hkey Hr eq_refl Hraw eq_refl eq_refl).
Defined.

Lemma read_response_text_raises w r e :
  text r = Raise e -> is_AttributeError e = false ->
  outcome (read_response w r) empty_store = Raise e.
Proof.
  intros Ht He.
  unfold outcome, read_response, bind, getattr_text, try_except_class, try_except,
    lift, raise.
  rewrite Ht, He. reflexivity.
Qed.

(** X5.  The default of [getattr(response, "text", "")] covers a missing
    attribute only.  When evaluating [response.text] raises an
    [AttributeError] the body counts as empty and the generator raises
    "Gemini returned an empty response."; when it raises anything else, that
    exception leaves the generator as it is. *)
Theorem generate_text_accessor_errors w source s r e :
  key_present w ->
  chosen_response w source = Some r ->
  text r = Raise e ->
  outcome (generate_study_material w source) s
    = if is_AttributeError e
      then Raise (ValueError empty_response_message None)
      else Raise e.
Proof.
  intros Hkey Hr Ht.
  rewrite (generate_reads_chosen w source s r Hkey Hr).
  destruct (is_AttributeError e) eqn:He.
  - rewrite (read_response_body w r ""); [reflexivity|].
    unfold body. rewrite Ht, He. reflexivity.
  - apply (read_response_text_raises w r e Ht He).
Qed.

Lemma generate_text_accessor_errors_witness :
  outcome (generate_study_material
             (world_with_response [text_page "a"]
                (mkResponse (Raise (LibraryError "ValueError" "no valid Part")))
                (fun _ => Ok PyNone))
             "a") empty_store
  = Raise (LibraryError "ValueError" "no valid Part").
Proof.
  assert (Hkey : key_present
                   (world_with_response [text_page "a"]
                      (mkResponse (Raise (LibraryError "ValueError" "no valid Part")))
                      (fun _ => Ok PyNone))).
  { exists "k". split; [reflexivity | discriminate]. }
  exact (generate_text_accessor_errors _ "a" empty_store _ _ Hkey eq_refl eq_refl).
Defined.

(** ** The pages of a document *)

Lemma kept_chunks_app ps1 ps2 :
  kept_chunks (ps1 ++ ps2) = (kept_chunks ps1 ++ kept_chunks ps2)%list.
Proof.
  induction ps1 as [|p ps1 IH]; [reflexivity|].
  change ((p :: ps1) ++ ps2)%list with (p :: (ps1 ++ ps2))%list.
  rewrite !kept_chunks_cons, IH. destruct (page_chunk p); reflexivity.
Qed.

Lemma page_chunk_blank p : blank_page p -> page_chunk p = None.
Proof.
  unfold blank_page, page_chunk. destruct (extract_text p) as [[t|]|e]; try reflexivity.
  intros ->. reflexivity.
Qed.

Lemma append_assoc_str a b c : (a ++ b) ++ c = a ++ b ++ c.
Proof.
  induction a as [|x a IH]; [reflexivity|].
  rewrite !append_cons, IH. reflexivity.
Qed.

Lemma join_app sep a b :
  a <> [] -> b <> [] ->
  join sep (a ++ b) = join sep a ++ sep ++ join sep b.
Proof.
  intros Ha Hb. induction a as [|x a IH]; [congruence|].
  destruct a as [|y a].
  - destruct b as [|z b]; [congruence|]. reflexivity.
  - change ((x :: y :: a) ++ b)%list with (x :: y :: (a ++ b))%list.
    rewrite !join_cons.
    change (y :: (a ++ b))%list with ((y :: a) ++ b)%list.
    rewrite IH by discriminate.
    rewrite !append_assoc_str. reflexivity.
Qed.

Lemma extract_ok_inv w f pages s out :
  pdfplumber_open w f = Ok pages ->
  outcome (extract_text_from_pdf w f) s = Ok out ->
  kept_chunks pages <> [] /\ out = join blank_line (kept_chunks pages).
Proof.
  intros Hopen. unfold outcome. rewrite (extract_opened w f pages s Hopen). cbn [fst].
  destruct (kept_chunks pages) as [|c cs]; [discriminate|].
  intros Hout. split; [discriminate | congruence].
Qed.

(** X6.  A page that adds nothing (its extraction raises, returns [None], or
    returns whitespace only) has no effect on the result, wherever it stands
    in the document: the extraction gives what it gives for the document
    without that page. *)
Theorem extract_ignores_blank_page w f w' f' ps1 p ps2 s s' :
  pdfplumber_open w f = Ok (ps1 ++ p :: ps2)%list ->
  pdfplumber_open w' f' = Ok (ps1 ++ ps2)%list ->
  blank_page p ->
  outcome (extract_text_from_pdf w f) s = outcome (extract_text_from_pdf w' f') s'.
Proof.
  intros Hopen Hopen' Hp. unfold outcome.
  rewrite (extract_opened w f _ s Hopen), (extract_opened w' f' _ s' Hopen').
  rewrite !kept_chunks_app, kept_chunks_cons, (page_chunk_blank p Hp). reflexivity.
Qed.

Lemma extract_ignores_blank_page_witness :
  outcome (extract_text_from_pdf
             (world_of_pages [text_page "a";
                              failed_page (LibraryError "PDFSyntaxError" "bad page");
                              text_page "b"]) sample_pdf) empty_store
  = outcome (extract_text_from_pdf
               (world_of_pages [text_page "a"; text_page "b"]) sample_pdf) empty_store.
Proof.
  apply (extract_ignores_blank_page
           (world_of_pages [text_page "a";
                            failed_page (LibraryError "PDFSyntaxError" "bad page");
                            text_page "b"]) sample_pdf
           (world_of_pages [text_page "a"; text_page "b"]) sample_pdf
           [text_page "a"] (failed_page (LibraryError "PDFSyntaxError" "bad page"))
           [text_page "b"] empty_store empty_store eq_refl eq_refl).
  exact I.
Defined.

(** X7.  Extraction follows the page order of a document made of two parts:
    when each part alone gives a text, the whole gives the text of the first
    part, a blank line, and the text of the second part. *)
Theorem extract_of_two_parts w1 f1 w2 f2 w f ps1 ps2 s a b :
  pdfplumber_open w1 f1 = Ok ps1 ->
  pdfplumber_open w2 f2 = Ok ps2 ->
  pdfplumber_open w f = Ok (ps1 ++ ps2)%list ->
  outcome (extract_text_from_pdf w1 f1) s = Ok a ->
  outcome (extract_text_from_pdf w2 f2) s = Ok b ->
  outcome (extract_text_from_pdf w f) s = Ok (a ++ blank_line ++ b).
Proof.
  intros H1 H2 H Ha Hb.
  destruct (extract_ok_inv w1 f1 ps1 s a H1 Ha) as [Hne1 ->].
  destruct (extract_ok_inv w2 f2 ps2 s b H2 Hb) as [Hne2 ->].
  unfold outcome. rewrite (extract_opened w f _ s H). cbn [fst].
  rewrite kept_chunks_app, <- (join_app blank_line _ _ Hne1 Hne2).
  destruct (kept_chunks ps1 ++ kept_chunks ps2)%list eqn:Happ; [|reflexivity].
  apply app_eq_nil in Happ. tauto.
Qed.

Lemma extract_of_two_parts_witness :
  outcome (extract_text_from_pdf
             (world_of_pages [text_page padded_text; text_page "b"; text_page "c"])
             sample_pdf) empty_store
  = Ok ("a" ++ blank_line ++ join blank_line ["b"; "c"]).
Proof.
  apply (extract_of_two_parts
           (world_of_pages [text_page padded_text]) sample_pdf
           (world_of_pages [text_page "b"; text_page "c"]) sample_pdf
           (world_of_pages [text_page padded_text; text_page "b"; text_page "c"])
           sample_pdf
           [text_page padded_text] [text_page "b"; text_page "c"] empty_store
           "a" (join blank_line ["b"; "c"]) eq_refl eq_refl eq_refl);
    reflexivity.
Defined.

(** ** The handler as a whole *)

Lemma dashboard_post_pdf_calls w req f s :
  method req = POST ->
  FILES req !! "pdf_file" = Some f ->
  name f <> "" ->
  endswith (lower (name f)) ".pdf" = true ->
  calls_after (dashboard w req) s =
    match outcome (extract_text_from_pdf w f) empty_store with
    | Raise _ => (calls s ++ [CallExtract])%list
    | Ok source => calls_after (generate_study_material w source) (logged CallExtract s)
    end.
Proof.
  intros Hm Hf Hname Hpdf.
  unfold calls_after at 1. unfold dashboard. rewrite Hm, Hf. cbn [file_truthy].
  rewrite (str_truthy_true _ Hname), Hpdf. cbn [negb].
  unfold bind at 1 2. unfold update_context at 1. unfold try_except.
  unfold bind at 1. rewrite (extract_logs w f _).
  destruct (outcome (extract_text_from_pdf w f) empty_store) as [source|e];
    [|reflexivity].
  destruct (generate_uniform w source) as [evs Hgen].
  unfold calls_after. unfold bind at 1. rewrite !(Hgen _).
  destruct (outcome (generate_study_material w source) empty_store) as [v|e];
    [|reflexivity].
  destruct v; reflexivity.
Qed.

Lemma invoked_in_list w source models : forall last_error,
  Forall (fun m => In m models) (invoked (first_success w source models last_error)).
Proof.
  induction models as [|m models IH]; intros le; cbn; [constructor|].
  destruct (generate_content w m source) as [r|e]; cbn.
  - constructor; [left; reflexivity | constructor].
  - constructor; [left; reflexivity|].
    eapply Forall_impl; [apply IH|]. cbv beta. intros x Hx. right. exact Hx.
Qed.

Lemma generate_calls w source s :
  exists models,
    calls_after (generate_study_material w source) s
      = (calls s ++ CallGenerate :: map CallModel models)%list
    /\ Forall (fun m => In m model_priority) models.
Proof.
  unfold calls_after. destruct (key_cases w) as [Hkey|Hno].
  - rewrite (generate_with_key w source s Hkey). eexists. split; [reflexivity|].
    apply invoked_in_list.
  - rewrite (generate_without_key w source s Hno). exists []. split; [reflexivity|].
    constructor.
Qed.

Lemma error_text_nonempty e : error_text e <> "".
Proof.
  unfold error_text. destruct (str_truthy (str_exc e)) eqn:He.
  - intros H. rewrite H in He. discriminate.
  - discriminate.
Qed.

Lemma generate_ok_conforming w source s d :
  outcome (generate_study_material w source) s = Ok (PyDict d) -> conforming d.
Proof.
  intros Hout.
  destruct (generate_ok_inv w source s _ Hout) as (_ & r & raw & d0 & _ & _ & _ & Heq).
  injection Heq as ->. apply normalized_conforming.
Qed.

(** X8.  A file that passes the name check but cannot be opened as a PDF:
    the extractor raises the [ValueError] "Could not read PDF file. It may
    be corrupt or not a valid PDF." caused by the library's error; the
    handler renders that message as [error] with no results, and the
    generator is not called. *)
Theorem unreadable_upload_is_reported w req f s e :
  method req = POST ->
  FILES req !! "pdf_file" = Some f ->
  name f <> "" ->
  endswith (lower (name f)) ".pdf" = true ->
  pdfplumber_open w f = Raise e ->
  outcome (extract_text_from_pdf w f) s = Raise (ValueError read_error_message (Some e))
  /\ outcome (dashboard w req) s
     = Ok (mkContext PyNone (PyList []) (PyList []) (Some read_error_message))
  /\ calls_after (dashboard w req) s = (calls s ++ [CallExtract])%list.
Proof.
  intros Hm Hf Hname Hpdf Hopen.
  assert (Hout : forall s', outcome (extract_text_from_pdf w f) s'
                            = Raise (ValueError read_error_message (Some e))).
  { intros s'. unfold outcome. rewrite (extract_unreadable w f e s' Hopen). reflexivity. }
  split; [apply Hout|]. split.
  - rewrite (dashboard_post_pdf w req f s Hm Hf Hname Hpdf), Hout. reflexivity.
  - rewrite (dashboard_post_pdf_calls w req f s Hm Hf Hname Hpdf), Hout. reflexivity.
Qed.

Lemma unreadable_upload_is_reported_witness :
  outcome (extract_text_from_pdf
             (world_without_pdf (LibraryError "PDFSyntaxError" "No /Root object!"))
             sample_pdf) empty_store
  = Raise (ValueError read_error_message
             (Some (LibraryError "PDFSyntaxError" "No /Root object!")))
  /\ outcome (dashboard
                (world_without_pdf (LibraryError "PDFSyntaxError" "No /Root object!"))
                (post_of sample_pdf)) empty_store
     = Ok (mkContext PyNone (PyList []) (PyList []) (Some read_error_message))
  /\ calls_after (dashboard
                    (world_without_pdf (LibraryError "PDFSyntaxError" "No /Root object!"))
                    (post_of sample_pdf)) empty_store
     = [CallExtract].
Proof.
  assert (Hf : FILES (post_of sample_pdf) !! "pdf_file" = Some sample_pdf)
    by (vm_compute; reflexivity).
  assert (Hname : name sample_pdf <> "") by discriminate.
  exact (unreadable_upload_is_reported
           (world_without_pdf (LibraryError "PDFSyntaxError" "No /Root object!"))
           (post_of sample_pdf) sample_pdf empty_store _
           eq_refl Hf Hname eq_refl eq_refl).
Defined.

(** X9.  For a POST with a PDF file the handler calls the extractor first.
    When the extractor raises, nothing else is called: the generator is not
    entered and no model is asked.  When it returns, the generator is entered
    next, and what follows are calls of models of the priority list only. *)
Theorem dashboard_calls_in_order w req f s :
  method req = POST ->
  FILES req !! "pdf_file" = Some f ->
  name f <> "" ->
  endswith (lower (name f)) ".pdf" = true ->
  (forall e,
      outcome (extract_text_from_pdf w f) s = Raise e ->
      calls_after (dashboard w req) s = (calls s ++ [CallExtract])%list)
  /\ (forall source,
         outcome (extract_text_from_pdf w f) s = Ok source ->
         exists models,
           calls_after (dashboard w req) s
             = (calls s ++ CallExtract :: CallGenerate :: map CallModel models)%list
           /\ Forall (fun m => In m model_priority) models).
Proof.
  intros Hm Hf Hname Hpdf.
  rewrite (dashboard_post_pdf_calls w req f s Hm Hf Hname Hpdf).
  rewrite (logs_only_outcome _ _ s (extract_logs w f)). split.
  - intros e ->. reflexivity.
  - intros source ->.
    destruct (generate_calls w source (logged CallExtract s)) as (models & Hc & Hin).
    exists models. split; [|exact Hin].
    rewrite Hc. cbn [logged calls]. rewrite <- app_assoc. reflexivity.
Qed.

Lemma dashboard_calls_in_order_witness :
  calls_after (dashboard (world_of_pages []) (post_of sample_pdf)) empty_store
  = [CallExtract].
Proof.
  assert (Hf : FILES (post_of sample_pdf) !! "pdf_file" = Some sample_pdf)
    by (vm_compute; reflexivity).
  assert (Hname : name sample_pdf <> "") by discriminate.
  destruct (dashboard_calls_in_order (world_of_pages []) (post_of sample_pdf)
              sample_pdf empty_store eq_refl Hf Hname eq_refl) as [Hfail _].
  apply (Hfail (ValueError empty_content_message None)). reflexivity.
Defined.

(** The contexts the view can arrive at, branch by branch. *)
Lemma dashboard_context_cases w req s :
  exists c,
    outcome (dashboard w req) s = Ok c
    /\ (error c = None \/ no_results c)
    /\ error c <> Some "".
Proof.
  assert (Hrej : forall msg, msg <> "" ->
            (error (set_error msg initial_context) = None
             \/ no_results (set_error msg initial_context))
            /\ error (set_error msg initial_context) <> Some "").
  { intros msg Hmsg. split; [right; repeat split|].
    cbn. intros [= H]. exact (Hmsg H). }
  destruct (method req) eqn:Hm.
  - exists initial_context. unfold outcome, dashboard. rewrite Hm.
    split; [reflexivity|]. split; [left; reflexivity | discriminate].
  - destruct (dashboard_rejects w req s Hm) as [Hnone Hext].
    destruct (file_truthy (FILES req !! "pdf_file")) eqn:Hfile.
    + destruct (FILES req !! "pdf_file") as [f|] eqn:Hf; [|discriminate].
      assert (Hname : name f <> "").
      { intros H. cbn in Hfile. rewrite H in Hfile. discriminate. }
      destruct (endswith (lower (name f)) ".pdf") eqn:Hpdf.
      * rewrite (dashboard_post_pdf w req f s Hm Hf Hname Hpdf).
        eexists. split; [reflexivity|].
        destruct (outcome (extract_text_from_pdf w f) empty_store) as [source|e];
          [|apply Hrej, error_text_nonempty].
        destruct (outcome (generate_study_material w source) empty_store) as [v|e];
          [|apply Hrej, error_text_nonempty].
        destruct v; try (apply Hrej, error_text_nonempty).
        split; [left; reflexivity | discriminate].
      * exists (set_error not_pdf_message initial_context). unfold outcome.
        rewrite (Hext f eq_refl Hname Hpdf). split; [reflexivity|].
        apply Hrej. discriminate.
    + exists (set_error no_file_message initial_context). unfold outcome.
      rewrite (Hnone eq_refl). split; [reflexivity|]. apply Hrej. discriminate.
Qed.

(** X10.  In every context the view hands to [render], for a GET and for a
    POST, whatever the upload is and whatever the extractor and the generator
    return or raise, an error is never shown together with results, and an
    error that is shown is never the empty string. *)
Theorem dashboard_context_invariant w req s c :
  outcome (dashboard w req) s = Ok c ->
  (error c = None \/ no_results c) /\ error c <> Some "".
Proof.
  intros Hout. destruct (dashboard_context_cases w req s) as (c' & Hc' & Hinv).
  rewrite Hc' in Hout. injection Hout as <-. exact Hinv.
Qed.

Lemma dashboard_context_invariant_witness :
  (error (mkContext PyNone (PyList []) (PyList []) (Some empty_content_message)) = None
   \/ no_results (mkContext PyNone (PyList []) (PyList []) (Some empty_content_message)))
  /\ error (mkContext PyNone (PyList []) (PyList []) (Some empty_content_message))
     <> Some "".
Proof.
  apply (dashboard_context_invariant (world_of_pages []) (post_of sample_pdf)
           empty_store).
  vm_compute. reflexivity.
Defined.

(** X11.  A context rendered without an error is either that of a GET, with
    nothing in it, or that of a POST that went through: then [summary] is a
    string and [flashcards] and [quiz] are lists. *)
Theorem dashboard_results_are_typed w req s c :
  outcome (dashboard w req) s = Ok c ->
  error c = None ->
  (method req = GET /\ c = initial_context)
  \/ (method req = POST
      /\ exists x l q, summary c = PyStr x /\ flashcards c = PyList l /\ quiz c = PyList q).
Proof.
  destruct (method req) eqn:Hm.
  - unfold outcome, dashboard. rewrite Hm. intros [= <-] _. left. split; reflexivity.
  - intros Hout Herr. right. split; [reflexivity|].
    destruct (dashboard_rejects w req s Hm) as [Hnone Hext].
    destruct (file_truthy (FILES req !! "pdf_file")) eqn:Hfile.
    + destruct (FILES req !! "pdf_file") as [f|] eqn:Hf; [|discriminate].
      assert (Hname : name f <> "").
      { intros H. cbn in Hfile. rewrite H in Hfile. discriminate. }
      destruct (endswith (lower (name f)) ".pdf") eqn:Hpdf.
      * rewrite (dashboard_post_pdf w req f s Hm Hf Hname Hpdf) in Hout.
        destruct (outcome (extract_text_from_pdf w f) empty_store) as [source|e];
          [|injection Hout as <-; discriminate].
        destruct (outcome (generate_study_material w source) empty_store)
          as [v|e] eqn:Hgen; [|injection Hout as <-; discriminate].
        destruct v as [| | | | | |d]; try (injection Hout as <-; discriminate).
        destruct (generate_ok_conforming w source _ d Hgen)
          as ([x Hs] & [l Hfl] & [q Hq]).
        injection Hout as <-. rewrite Hs, Hfl, Hq. exists x, l, q.
        repeat split; reflexivity.
      * unfold outcome in Hout. rewrite (Hext f eq_refl Hname Hpdf) in Hout.
        injection Hout as <-. discriminate.
    + unfold outcome in Hout. rewrite (Hnone eq_refl) in Hout.
      injection Hout as <-. discriminate.
Qed.

Lemma dashboard_results_are_typed_witness :
  (method (post_of sample_pdf) = GET
   /\ mkContext (PyStr "Light becomes sugar.") (PyList []) (PyList []) None
      = initial_context)
  \/ (method (post_of sample_pdf) = POST
      /\ exists x l q,
           summary (mkContext (PyStr "Light becomes sugar.") (PyList []) (PyList []) None)
             = PyStr x
           /\ flashcards
                (mkContext (PyStr "Light becomes sugar.") (PyList []) (PyList []) None)
              = PyList l
           /\ quiz (mkContext (PyStr "Light becomes sugar.") (PyList []) (PyList []) None)
              = PyList q).
Proof.
  apply (dashboard_results_are_typed
           (service_world (Some "k") (only_model primary_model)
              (Some object_body) (Ok (PyDict object_payload)))
           (post_of sample_pdf) empty_store).
  - vm_compute. reflexivity.
  - reflexivity.
Defined.

(** X12.  End to end: for a POST with a PDF file that opens and has text,
    the credential configured, a model that answers and a body that decodes
    to a JSON object, the model is asked about exactly the extracted text
    (the chunks of the pages joined by blank lines) and the context rendered
    holds the normalized fields of the decoded object and no error. *)
Theorem dashboard_end_to_end w req f s pages r raw d :
  method req = POST ->
  FILES req !! "pdf_file" = Some f ->
  name f <> "" ->
  endswith (lower (name f)) ".pdf" = true ->
  pdfplumber_open w f = Ok pages ->
  kept_chunks pages <> [] ->
  key_present w ->
  chosen_response w (join blank_line (kept_chunks pages)) = Some r ->
  body r = Some raw -> raw <> "" ->
  json_loads w raw = Ok (PyDict d) ->
  outcome (dashboard w req) s
    = Ok (mkContext (field_or is_str (PyStr "") (d !! "summary"))
                    (field_or is_list (PyList []) (d !! "flashcards"))
                    (field_or is_list (PyList []) (d !! "quiz"))
                    None).
Proof.
  intros Hm Hf Hname Hpdf Hopen Hne Hkey Hr Hbody Hraw Hloads.
  rewrite (dashboard_post_pdf w req f s Hm Hf Hname Hpdf).
  assert (Hsrc : outcome (extract_text_from_pdf w f) empty_store
                 = Ok (join blank_line (kept_chunks pages))).
  { unfold outcome. rewrite (extract_opened w f pages _ Hopen). cbn [fst].
    destruct (kept_chunks pages); [congruence | reflexivity]. }
  rewrite Hsrc.
  rewrite (generate_decoded w _ empty_store r raw _ Hkey Hr Hbody Hraw Hloads).
  unfold outcome. rewrite normalize_dict. cbn [fst].
  change (set_default "quiz" is_list (PyList [])
            (set_default "flashcards" is_list (PyList [])
               (set_default "summary" is_str (PyStr "") d)))
    with (normalized d).
  rewrite normalized_lookup_summary, normalized_lookup_flashcards,
    normalized_lookup_quiz.
  reflexivity.
Qed.

Lemma dashboard_end_to_end_witness :
  outcome (dashboard
             (service_world (Some "k") (only_model latest_model)
                (Some object_body) (Ok (PyDict object_payload)))
             (post_of sample_pdf)) empty_store
  = Ok (mkContext (field_or is_str (PyStr "") (object_payload !! "summary"))
                  (field_or is_list (PyList []) (object_payload !! "flashcards"))
                  (field_or is_list (PyList []) (object_payload !! "quiz"))
                  None).
Proof.
  assert (Hf : FILES (post_of sample_pdf) !! "pdf_file" = Some sample_pdf)
    by (vm_compute; reflexivity).
  assert (Hname : name sample_pdf <> "") by discriminate.
  assert (Hne : kept_chunks [text_page "Photosynthesis turns light into sugar."] <> [])
    by (vm_compute; discriminate).
  assert (Hkey : key_present
                   (service_world (Some "k") (only_model latest_model)
                      (Some object_body) (Ok (PyDict object_payload)))).
  { exists "k". split; [reflexivity | discriminate]. }
  assert (Hr : chosen_response
                 (service_world (Some "k") (only_model latest_model)
                    (Some object_body) (Ok (PyDict object_payload)))
                 (join blank_line
                    (kept_chunks [text_page "Photosynthesis turns light into sugar."]))
               = Some (mkResponse (Ok (Some object_body)))) by reflexivity.
  assert (Hraw : object_body <> "") by (vm_compute; discriminate).
  assert (Hloads : json_loads
                     (service_world (Some "k") (only_model latest_model)
                        (Some object_body) (Ok (PyDict object_payload))) object_body
                   = Ok (PyDict object_payload)) by (vm_compute; reflexivity).
  assert (Hopen : pdfplumber_open
                    (service_world (Some "k") (only_model latest_model)
                       (Some object_body) (Ok (PyDict object_payload))) sample_pdf
                  = Ok [text_page "Photosynthesis turns light into sugar."])
    by reflexivity.
  exact (dashboard_end_to_end _ (post_of sample_pdf) sample_pdf empty_store
           [text_page "Photosynthesis turns light into sugar."]
           (mkResponse (Ok (Some object_body))) object_body object_payload
           eq_refl Hf Hname eq_refl Hopen Hne Hkey Hr eq_refl Hraw Hloads).
Defined.

(** ** The check of the file name *)

Lemma str_length_app a b :
  String.length (a ++ b) = String.length a + String.length b.
Proof.
  induction a as [|c a IH]; [reflexivity|].
  rewrite append_cons. cbn [String.length]. rewrite IH. reflexivity.
Qed.

Lemma substring_skip a m b :
  String.substring (String.length a) m (a ++ b) = String.substring 0 m b.
Proof. induction a as [|c a IH]; [reflexivity|]. rewrite append_cons. exact IH. Qed.

Lemma substring_all b : String.substring 0 (String.length b) b = b.
Proof. induction b as [|c b IH]; [reflexivity|]. cbn. rewrite IH. reflexivity. Qed.

Lemma split_at n : forall s,
  n <= String.length s ->
  exists a b, s = a ++ b /\ String.length a = n.
Proof.
  induction n as [|n IH]; intros s Hn.
  - exists "", s. split; reflexivity.
  - destruct s as [|c s]; [cbn in Hn; lia|].
    destruct (IH s) as (a & b & -> & Ha); [cbn in Hn; lia|].
    exists (String c a), b. split; [reflexivity|]. cbn. rewrite Ha. reflexivity.
Qed.

Lemma endswith_app a b suffix :
  String.length b = String.length suffix ->
  endswith (a ++ b) suffix = String.eqb b suffix.
Proof.
  intros Hlen. unfold endswith. rewrite str_length_app, <- Hlen.
  replace (String.length a + String.length b - String.length b)
    with (String.length a) by lia.
  rewrite substring_skip, substring_all.
  replace (Nat.leb (String.length b) (String.length a + String.length b)) with true.
  - reflexivity.
  - symmetry. apply Nat.leb_le. lia.
Qed.

Lemma lower_app a b : lower (a ++ b) = lower a ++ lower b.
Proof.
  induction a as [|c a IH]; [reflexivity|].
  rewrite append_cons. cbn [lower]. rewrite IH. reflexivity.
Qed.

Lemma lower_length s : String.length (lower s) = String.length s.
Proof. induction s as [|c s IH]; [reflexivity|]. cbn. rewrite IH. reflexivity. Qed.

Lemma lower_char_dot c : lower_char c = "."%char <-> c = "."%char.
Proof.
  split; [|intros ->; reflexivity].
  destruct c as [[] [] [] [] [] [] [] []]; vm_compute; intros H;
    solve [discriminate | reflexivity].
Qed.

Lemma lower_char_p c : lower_char c = "p"%char <-> c = "p"%char \/ c = "P"%char.
Proof.
  split; [|intros [-> | ->]; reflexivity].
  destruct c as [[] [] [] [] [] [] [] []]; vm_compute; intros H;
    solve [discriminate | left; reflexivity | right; reflexivity].
Qed.

Lemma lower_char_d c : lower_char c = "d"%char <-> c = "d"%char \/ c = "D"%char.
Proof.
  split; [|intros [-> | ->]; reflexivity].
  destruct c as [[] [] [] [] [] [] [] []]; vm_compute; intros H;
    solve [discriminate | left; reflexivity | right; reflexivity].
Qed.

Lemma lower_char_f c : lower_char c = "f"%char <-> c = "f"%char \/ c = "F"%char.
Proof.
  split; [|intros [-> | ->]; reflexivity].
  destruct c as [[] [] [] [] [] [] [] []]; vm_compute; intros H;
    solve [discriminate | left; reflexivity | right; reflexivity].
Qed.

Lemma lower_pdf_ending ext :
  String.length ext = 4 -> (lower ext = ".pdf" <-> pdf_ending ext).
Proof.
  intros Hlen.
  destruct ext as [|c1 [|c2 [|c3 [|c4 [|c5 rest]]]]]; try discriminate.
  cbn [lower]. unfold pdf_ending. split.
  - intros H.
    assert (H1 : lower_char c1 = "."%char) by congruence.
    assert (H2 : lower_char c2 = "p"%char) by congruence.
    assert (H3 : lower_char c3 = "d"%char) by congruence.
    assert (H4 : lower_char c4 = "f"%char) by congruence.
    clear H. apply (proj1 (lower_char_dot c1)) in H1.
    apply (proj1 (lower_char_p c2)) in H2. apply (proj1 (lower_char_d c3)) in H3.
    apply (proj1 (lower_char_f c4)) in H4. subst c1.
    exists c2, c3, c4. tauto.
  - intros (p & d & f & [= -> -> -> ->] & Hp & Hd & Hf).
    apply (proj2 (lower_char_p p)) in Hp. apply (proj2 (lower_char_d d)) in Hd.
    apply (proj2 (lower_char_f f)) in Hf.
    rewrite Hp, Hd, Hf. reflexivity.
Qed.

Lemma pdf_ending_length ext : pdf_ending ext -> String.length ext = 4.
Proof. intros (p & d & f & -> & _). reflexivity. Qed.

(** The name check [name.lower().endswith(".pdf")] accepts exactly the names
    whose last four characters are a dot followed by p, d, f, each in either
    case. *)
Lemma pdf_name_check name :
  endswith (lower name) ".pdf" = true
  <-> exists stem ext, name = stem ++ ext /\ pdf_ending ext.
Proof.
  split.
  - intros Hend.
    assert (Hlen : 4 <= String.length name).
    { unfold endswith in Hend. apply andb_prop in Hend. destruct Hend as [Hle _].
      apply Nat.leb_le in Hle. rewrite lower_length in Hle. exact Hle. }
    destruct (split_at (String.length name - 4) name) as (a & b & -> & Ha); [lia|].
    assert (Hb : String.length b = 4).
    { rewrite str_length_app in Ha, Hlen. lia. }
    exists a, b. split; [reflexivity|].
    apply (lower_pdf_ending b Hb).
    rewrite lower_app, endswith_app in Hend by (rewrite lower_length; exact Hb).
    apply String.eqb_eq. exact Hend.
  - intros (stem & ext & -> & Hext).
    pose proof (pdf_ending_length ext Hext) as Hlen.
    rewrite lower_app, endswith_app by (rewrite lower_length; exact Hlen).
    apply String.eqb_eq. apply (lower_pdf_ending ext Hlen). exact Hext.
Qed.

(** X13.  For a POST with a file, what decides between extraction and the
    answer "Only PDF files are supported." is the last four characters of
    the file name alone: when they are a dot followed by p, d, f, each in
    either case, the extractor is called, whatever the rest of the name and
    the content; otherwise the answer is rendered and nothing is called. *)
Theorem dashboard_gate_by_name w req f s :
  method req = POST ->
  FILES req !! "pdf_file" = Some f ->
  name f <> "" ->
  ((exists stem ext, name f = stem ++ ext /\ pdf_ending ext) ->
   exists rest, calls_after (dashboard w req) s = (calls s ++ CallExtract :: rest)%list)
  /\ (~ (exists stem ext, name f = stem ++ ext /\ pdf_ending ext) ->
      outcome (dashboard w req) s
        = Ok (mkContext PyNone (PyList []) (PyList []) (Some not_pdf_message))
      /\ calls_after (dashboard w req) s = calls s).
Proof.
  intros Hm Hf Hname. split.
  - intros Hext. apply pdf_name_check in Hext.
    rewrite (dashboard_post_pdf_calls w req f s Hm Hf Hname Hext).
    destruct (outcome (extract_text_from_pdf w f) empty_store) as [source|e].
    + destruct (generate_calls w source (logged CallExtract s)) as (models & Hc & _).
      rewrite Hc. cbn [logged calls]. rewrite <- app_assoc.
      eexists. reflexivity.
    + exists []. reflexivity.
  - intros Hext.
    assert (Hpdf : endswith (lower (name f)) ".pdf" = false).
    { destruct (endswith (lower (name f)) ".pdf") eqn:H; [|reflexivity].
      apply pdf_name_check in H. tauto. }
    destruct (dashboard_rejects w req s Hm) as [_ Hrej].
    unfold outcome, calls_after. rewrite (Hrej f Hf Hname Hpdf). split; reflexivity.
Qed.

Lemma dashboard_gate_by_name_witness :
  exists rest,
    calls_after (dashboard (world_of_pages [])
                   (post_of (mkUploadedFile "Notes.v2.PdF" []))) empty_store
    = CallExtract :: rest.
Proof.
  assert (Hf : FILES (post_of (mkUploadedFile "Notes.v2.PdF" [])) !! "pdf_file"
               = Some (mkUploadedFile "Notes.v2.PdF" [])) by (vm_compute; reflexivity).
  assert (Hname : name (mkUploadedFile "Notes.v2.PdF" []) <> "") by discriminate.
  destruct (dashboard_gate_by_name (world_of_pages [])
              (post_of (mkUploadedFile "Notes.v2.PdF" []))
              (mkUploadedFile "Notes.v2.PdF" []) empty_store eq_refl Hf Hname)
    as [Haccept _].
  apply Haccept. exists "Notes.v2", ".PdF". split; [reflexivity|].
  exists "P"%char, "d"%char, "F"%char. split; [reflexivity|]. tauto.
Defined.

(** ** Generator failures as the handler shows them *)

Lemma dashboard_generator_raises w req f s source e :
  method req = POST ->
  FILES req !! "pdf_file" = Some f ->
  name f <> "" ->
  endswith (lower (name f)) ".pdf" = true ->
  outcome (extract_text_from_pdf w f) empty_store = Ok source ->
  outcome (generate_study_material w source) empty_store = Raise e ->
  outcome (dashboard w req) s
    = Ok (mkContext PyNone (PyList []) (PyList []) (Some (error_text e)))
  /\ calls_after (dashboard w req) s
     = calls_after (generate_study_material w source) (logged CallExtract s).
Proof.
  intros Hm Hf Hname Hpdf Hsrc He. split.
  - rewrite (dashboard_post_pdf w req f s Hm Hf Hname Hpdf), Hsrc, He. reflexivity.
  - rewrite (dashboard_post_pdf_calls w req f s Hm Hf Hname Hpdf), Hsrc. reflexivity.
Qed.

(** X14.  When the extractor returned and all three models raised, the
    handler renders "All Gemini model attempts failed. Please check your
    quota, region, or model access." as [error], whatever the three errors
    say: the errors of the models stay out of the page.  The calls are the
    extractor, the generator and the three models in order. *)
Theorem dashboard_hides_model_errors w req f s source eA eB eC :
  method req = POST ->
  FILES req !! "pdf_file" = Some f ->
  name f <> "" ->
  endswith (lower (name f)) ".pdf" = true ->
  outcome (extract_text_from_pdf w f) s = Ok source ->
  key_present w ->
  generate_content w primary_model source = Raise eA ->
  generate_content w fallback_model source = Raise eB ->
  generate_content w latest_model source = Raise eC ->
  outcome (dashboard w req) s
    = Ok (mkContext PyNone (PyList []) (PyList []) (Some all_failed_message))
  /\ calls_after (dashboard w req) s
     = (calls s ++ [CallExtract; CallGenerate; CallModel primary_model;
                    CallModel fallback_model; CallModel latest_model])%list.
Proof.
  intros Hm Hf Hname Hpdf Hsrc Hkey HA HB HC.
  rewrite (logs_only_outcome _ _ s (extract_logs w f)) in Hsrc.
  assert (Hgen : forall s',
            generate_study_material w source s'
            = (Raise (RuntimeError all_failed_message (Some eC)),
               mkStore (ctx s')
                 (calls s' ++ [CallGenerate; CallModel primary_model;
                               CallModel fallback_model; CallModel latest_model]))).
  { intros s'. rewrite (generate_with_key w source s' Hkey).
    unfold model_priority, first_success. rewrite HA, HB, HC. reflexivity. }
  destruct (dashboard_generator_raises w req f s source
              (RuntimeError all_failed_message (Some eC)) Hm Hf Hname Hpdf Hsrc)
    as [Hout Hcalls].
  { unfold outcome. rewrite Hgen. reflexivity. }
  split; [exact Hout|].
  rewrite Hcalls. unfold calls_after. rewrite Hgen. cbn [snd calls logged].
  rewrite <- app_assoc. reflexivity.
Qed.

Lemma dashboard_hides_model_errors_witness :
  outcome (dashboard
             (service_world (Some "k") (fun _ => false)
                (Some object_body) (Ok (PyDict object_payload)))
             (post_of sample_pdf)) empty_store
  = Ok (mkContext PyNone (PyList []) (PyList []) (Some all_failed_message))
  /\ calls_after (dashboard
                    (service_world (Some "k") (fun _ => false)
                       (Some object_body) (Ok (PyDict object_payload)))
                    (post_of sample_pdf)) empty_store
     = [CallExtract; CallGenerate; CallModel primary_model;
        CallModel fallback_model; CallModel latest_model].
Proof.
  assert (Hf : FILES (post_of sample_pdf) !! "pdf_file" = Some sample_pdf)
    by (vm_compute; reflexivity).
  assert (Hname : name sample_pdf <> "") by discriminate.
  assert (Hkey : key_present
                   (service_world (Some "k") (fun _ => false)
                      (Some object_body) (Ok (PyDict object_payload)))).
  { exists "k". split; [reflexivity | discriminate]. }
  assert (Hsrc : outcome (extract_text_from_pdf
                            (service_world (Some "k") (fun _ => false)
                               (Some object_body) (Ok (PyDict object_payload)))
                            sample_pdf) empty_store
                 = Ok "Photosynthesis turns light into sugar.") by reflexivity.
  exact (dashboard_hides_model_errors _ (post_of sample_pdf) sample_pdf empty_store
           "Photosynthesis turns light into sugar."
           (LibraryError "ResourceExhausted" "quota exceeded")
           (LibraryError "ResourceExhausted" "quota exceeded")
           (LibraryError "ResourceExhausted" "quota exceeded")
           eq_refl Hf Hname eq_refl Hsrc Hkey eq_refl eq_refl eq_refl).
Defined.

(** X15.  The credential is looked at only after the extractor returned.
    With [GEMINI_API_KEY] unset or empty, a PDF with text is still opened and
    read, and only then the handler renders "GEMINI_API_KEY is not set in the
    environment." with no model asked; a PDF that cannot be opened or has no
    text is answered with the extractor's error and the missing credential
    goes unnoticed. *)
Theorem dashboard_checks_key_after_extraction w req f s :
  method req = POST ->
  FILES req !! "pdf_file" = Some f ->
  name f <> "" ->
  endswith (lower (name f)) ".pdf" = true ->
  getenv w "GEMINI_API_KEY" = None \/ getenv w "GEMINI_API_KEY" = Some "" ->
  (forall source,
      outcome (extract_text_from_pdf w f) s = Ok source ->
      outcome (dashboard w req) s
        = Ok (mkContext PyNone (PyList []) (PyList []) (Some missing_key_message))
      /\ calls_after (dashboard w req) s = (calls s ++ [CallExtract; CallGenerate])%list)
  /\ (forall e,
         outcome (extract_text_from_pdf w f) s = Raise e ->
         outcome (dashboard w req) s
           = Ok (mkContext PyNone (PyList []) (PyList []) (Some (error_text e)))
         /\ calls_after (dashboard w req) s = (calls s ++ [CallExtract])%list).
Proof.
  intros Hm Hf Hname Hpdf Hno.
  rewrite (logs_only_outcome _ _ s (extract_logs w f)). split.
  - intros source Hsrc.
    destruct (dashboard_generator_raises w req f s source
                (RuntimeError missing_key_message None) Hm Hf Hname Hpdf Hsrc)
      as [Hout Hcalls].
    { unfold outcome. rewrite (generate_without_key w source _ Hno). reflexivity. }
    split; [exact Hout|].
    rewrite Hcalls. unfold calls_after.
    rewrite (generate_without_key w source _ Hno). cbn [snd calls logged].
    rewrite <- app_assoc. reflexivity.
  - intros e He. split.
    + rewrite (dashboard_post_pdf w req f s Hm Hf Hname Hpdf), He. reflexivity.
    + rewrite (dashboard_post_pdf_calls w req f s Hm Hf Hname Hpdf), He. reflexivity.
Qed.

Lemma dashboard_checks_key_after_extraction_witness :
  outcome (dashboard
             (service_world None (only_model primary_model)
                (Some object_body) (Ok (PyDict object_payload)))
             (post_of sample_pdf)) empty_store
  = Ok (mkContext PyNone (PyList []) (PyList []) (Some missing_key_message))
  /\ calls_after (dashboard
                    (service_world None (only_model primary_model)
                       (Some object_body) (Ok (PyDict object_payload)))
                    (post_of sample_pdf)) empty_store
     = [CallExtract; CallGenerate].
Proof.
  assert (Hf : FILES (post_of sample_pdf) !! "pdf_file" = Some sample_pdf)
    by (vm_compute; reflexivity).
  assert (Hname : name sample_pdf <> "") by discriminate.
  assert (Hno : getenv (service_world None (only_model primary_model)
                          (Some object_body) (Ok (PyDict object_payload)))
                  "GEMINI_API_KEY" = None
                \/ getenv (service_world None (only_model primary_model)
                             (Some object_body) (Ok (PyDict object_payload)))
                     "GEMINI_API_KEY" = Some "") by (left; reflexivity).
  destruct (dashboard_checks_key_after_extraction _ (post_of sample_pdf) sample_pdf
              empty_store eq_refl Hf Hname eq_refl Hno) as [Hread _].
  apply (Hread "Photosynthesis turns light into sugar."). reflexivity.
Defined.
